(** * ILHealth MCP gateway (src/server.py): a shallow embedding

    The server exposes four tools.  Three of them issue one HTTP GET and pass
    the parsed JSON body through [clean_json], a recursive whitespace trim;
    the fourth lists a static subject table.  This file models

    - Python [str] values as lists of Unicode code points, with [str.strip];
    - parsed JSON as a tagged union, Python dicts as association lists in
      insertion order;
    - exceptions as an error type, and the single outbound request of each
      tool as a node of a small interaction tree that a handler runs against
      an arbitrary upstream, recording the URLs requested. *)

From Stdlib Require Import List ZArith NArith Bool Lia String Ascii.
From Stdlib Require Import Floats.SpecFloat.
Import ListNotations.

(** ** Python strings *)

Module Str.

(** A Python [str] is a sequence of Unicode code points. *)
Definition char := N.
Definition str := list char.

(** A source literal (all literals of server.py are ASCII). *)
Definition py (s : string) : str :=
  List.map N_of_ascii (list_ascii_of_string s).

(** [a == b] on strings. *)
Fixpoint eqb (a b : str) : bool :=
  match a, b with
  | [], [] => true
  | x :: a', y :: b' => (x =? y)%N && eqb a' b'
  | _, _ => false
  end.

(** [str.isspace] on one code point: the code points CPython's
    [_PyUnicode_IsWhitespace] accepts. *)
Definition isspace (c : char) : bool :=
  ((9 <=? c) && (c <=? 13)          (* \t \n \v \f \r *)
   || (28 <=? c) && (c <=? 32)      (* FS GS RS US, space *)
   || (c =? 133) || (c =? 160)      (* NEL, NBSP *)
   || (c =? 5760)                   (* U+1680 *)
   || (8192 <=? c) && (c <=? 8202)  (* U+2000 .. U+200A *)
   || (c =? 8232) || (c =? 8233)    (* U+2028, U+2029 *)
   || (c =? 8239) || (c =? 8287)    (* U+202F, U+205F *)
   || (c =? 12288))%N.              (* U+3000 *)

(** [s.lstrip()]: advance past the leading whitespace. *)
Fixpoint lstrip (s : str) : str :=
  match s with
  | [] => []
  | c :: t => if isspace c then lstrip t else s
  end.

(** [s.rstrip()]: retreat past the trailing whitespace. *)
Definition rstrip (s : str) : str := rev (lstrip (rev s)).

(** [s.strip()] with no argument: both ends, the slice in between kept. *)
Definition strip (s : str) : str := rstrip (lstrip s).

(** [sep.join(parts)]. *)
Fixpoint join (sep : str) (parts : list str) : str :=
  match parts with
  | [] => []
  | [p] => p
  | p :: rest => p ++ sep ++ join sep rest
  end.

(** [a in b] on strings: [a] occurs as a contiguous run of [b]. *)
Fixpoint prefixb (a b : str) : bool :=
  match a, b with
  | [], _ => true
  | x :: a', y :: b' => (x =? y)%N && prefixb a' b'
  | _ :: _, [] => false
  end.

Fixpoint contains (b a : str) : bool :=
  prefixb a b || match b with [] => false | _ :: b' => contains b' a end.

End Str.

Import Str.

(** ** Parsed JSON *)

(** What [response.json()] produces: [None], [bool], [int], [float], [str],
    [list] and [dict] (insertion ordered, string keys). *)
Unset Elimination Schemes.
Inductive json : Type :=
| JNull
| JBool (b : bool)
| JInt (z : Z)
| JFloat (f : spec_float)
| JStr (s : str)
| JArr (items : list json)
| JObj (fields : list (str * json)).
Set Elimination Schemes.

(** The clean_json of server.py (defined three times there, with the same
    body):
<<
    def clean_json(obj):
        if isinstance(obj, dict):
            return {k: clean_json(v) for k, v in obj.items()}
        elif isinstance(obj, list):
            return [clean_json(item) for item in obj]
        elif isinstance(obj, str):
            return obj.strip()
        return obj
>> *)
Fixpoint clean_json (obj : json) : json :=
  match obj with
  | JObj fields => JObj (List.map (fun kv => (fst kv, clean_json (snd kv))) fields)
  | JArr items => JArr (List.map clean_json items)
  | JStr s => JStr (strip s)
  | _ => obj
  end.

(** The same recursion with the call depth made explicit: [depth] frames are
    available, every recursive call uses one, and [None] means that the
    frames ran out before the call finished. *)
Fixpoint sequence_opt {A : Type} (l : list (option A)) : option (list A) :=
  match l with
  | [] => Some []
  | None :: _ => None
  | Some a :: t => match sequence_opt t with Some t' => Some (a :: t') | None => None end
  end.

Fixpoint clean_json_depth (depth : nat) (obj : json) : option json :=
  match depth with
  | O => None
  | S d =>
      match obj with
      | JObj fields =>
          match sequence_opt (List.map (fun kv => clean_json_depth d (snd kv)) fields) with
          | Some vs => Some (JObj (List.combine (List.map fst fields) vs))
          | None => None
          end
      | JArr items =>
          match sequence_opt (List.map (clean_json_depth d) items) with
          | Some vs => Some (JArr vs)
          | None => None
          end
      | JStr s => Some (JStr (strip s))
      | _ => Some obj
      end
  end.

(** Height of a JSON tree (a leaf has height 1). *)
Fixpoint height (obj : json) : nat :=
  match obj with
  | JObj fields => S (fold_right (fun kv m => Nat.max (height (snd kv)) m) 0 fields)
  | JArr items => S (fold_right (fun v m => Nat.max (height v) m) 0 items)
  | _ => 1
  end.

(** ** Exceptions and results *)

Inductive exn : Type :=
| ValueError (msg : str)      (* raised by the subject check *)
| KeyError (key : str)        (* d[key] on a dict without key *)
| TypeError                   (* subscripting or iterating the wrong type *)
| AttributeError              (* .get / .strip / .items on the wrong type *)
| RequestError                (* httpx: transport failure or timeout *)
| HTTPStatusError             (* response.raise_for_status() *)
| JSONDecodeError.            (* response.json() on a body that is not JSON *)

Inductive result (A : Type) : Type :=
| Ok (a : A)
| Err (e : exn).
Arguments Ok {A} a.
Arguments Err {A} e.

Module ResultMonad.

Definition bind {A B} (r : result A) (k : A -> result B) : result B :=
  match r with
  | Ok a => k a
  | Err e => Err e
  end.

(** A comprehension or a for loop over [l]: elements in order, the first
    exception ends it. *)
Fixpoint mapM {A B} (f : A -> result B) (l : list A) : result (list B) :=
  match l with
  | [] => Ok []
  | a :: t => bind (f a) (fun b => bind (mapM f t) (fun bs => Ok (b :: bs)))
  end.

(** [[x for x in l if p(x)]] with a condition that may raise. *)
Fixpoint filterM {A} (p : A -> result bool) (l : list A) : result (list A) :=
  match l with
  | [] => Ok []
  | a :: t =>
      bind (p a) (fun keep =>
      bind (filterM p t) (fun t' => Ok (if keep then a :: t' else t')))
  end.

End ResultMonad.

Declare Scope result_scope.
Delimit Scope result_scope with result.
Notation "x <- c ;; k" := (ResultMonad.bind c (fun x => k))
  (at level 61, c at next level, right associativity) : result_scope.

(** ** Python operations on JSON values *)

Section PythonOps.

Local Open Scope result_scope.

Fixpoint lookup (key : str) (d : list (str * json)) : option json :=
  match d with
  | [] => None
  | (k, v) :: rest => if eqb k key then Some v else lookup key rest
  end.

(** [obj[key]] with a string key. *)
Definition getitem (obj : json) (key : str) : result json :=
  match obj with
  | JObj d => match lookup key d with Some v => Ok v | None => Err (KeyError key) end
  | _ => Err TypeError
  end.

(** [obj.get(key, default)]. *)
Definition get (obj : json) (key : str) (default : json) : result json :=
  match obj with
  | JObj d => Ok (match lookup key d with Some v => v | None => default end)
  | _ => Err AttributeError
  end.

(** [obj.strip()]. *)
Definition strip_method (obj : json) : result json :=
  match obj with
  | JStr s => Ok (JStr (strip s))
  | _ => Err AttributeError
  end.

(** [obj.items()]. *)
Definition items (obj : json) : result (list (str * json)) :=
  match obj with
  | JObj d => Ok d
  | _ => Err AttributeError
  end.

(** [for x in obj]: a list yields its elements, a dict its keys, a string
    its characters; nothing else is iterable. *)
Definition iter (obj : json) : result (list json) :=
  match obj with
  | JArr l => Ok l
  | JObj d => Ok (List.map (fun kv => JStr (fst kv)) d)
  | JStr s => Ok (List.map (fun c => JStr [c]) s)
  | _ => Err TypeError
  end.

(** Truth value of an object, as [if obj:] tests it. *)
Definition truthy (obj : json) : bool :=
  match obj with
  | JNull => false
  | JBool b => b
  | JInt z => negb (z =? 0)%Z
  | JFloat (S754_zero _) => false
  | JFloat _ => true
  | JStr s => match s with [] => false | _ => true end
  | JArr l => match l with [] => false | _ => true end
  | JObj d => match d with [] => false | _ => true end
  end.

(** [obj == s] for a string [s]: only an equal string is equal. *)
Definition eq_str (obj : json) (s : str) : bool :=
  match obj with
  | JStr t => eqb t s
  | _ => false
  end.

(** [if sectionId:] for an [Optional[str]]: neither [None] nor empty. *)
Definition supplied (sectionId : option str) : bool :=
  match sectionId with
  | Some s => truthy (JStr s)
  | None => false
  end.

(** [obj == sectionId] for an [Optional[str]]. *)
Definition eq_opt_str (obj : json) (sectionId : option str) : bool :=
  match sectionId with
  | Some s => eq_str obj s
  | None => match obj with JNull => true | _ => false end
  end.

End PythonOps.

(** ** The HTTP client as an interaction *)

(** What the shared [httpx.Client] hands back for one GET: the transport
    fails (or times out after 30 s), or a response arrives whose status
    [raise_for_status] accepts or not and whose body parses as JSON or not. *)
Record response : Type := Response {
  status_ok : bool;
  body : option json
}.

Inductive reply : Type :=
| Failed
| Replied (r : response).

(** A tool body: it returns, raises, or performs a GET and continues with
    the reply. *)
Inductive io (A : Type) : Type :=
| Ret (a : A)
| Raise (e : exn)
| HttpGet (url : str) (k : reply -> io A).
Arguments Ret {A} a.
Arguments Raise {A} e.
Arguments HttpGet {A} url k.

Module IO.

Fixpoint bind {A B} (m : io A) (f : A -> io B) : io B :=
  match m with
  | Ret a => f a
  | Raise e => Raise e
  | HttpGet url k => HttpGet url (fun r => bind (k r) f)
  end.

Definition lift {A} (r : result A) : io A :=
  match r with
  | Ok a => Ret a
  | Err e => Raise e
  end.

(** Running a tool body against an upstream: the URLs requested, in
    order, and the outcome. *)
Fixpoint run {A} (upstream : str -> reply) (m : io A) : list str * result A :=
  match m with
  | Ret a => ([], Ok a)
  | Raise e => ([], Err e)
  | HttpGet url k =>
      let (urls, out) := run upstream (k (upstream url)) in (url :: urls, out)
  end.

Definition requests {A} (upstream : str -> reply) (m : io A) : list str :=
  fst (run upstream m).

Definition outcome {A} (upstream : str -> reply) (m : io A) : result A :=
  snd (run upstream m).

End IO.

Declare Scope io_scope.
Delimit Scope io_scope with io.
Notation "x <- c ;; k" := (IO.bind c (fun x => k))
  (at level 61, c at next level, right associativity) : io_scope.

(** [client.get(url)]. *)
Definition client_get (url : str) : io response :=
  HttpGet url (fun r =>
    match r with
    | Failed => Raise RequestError
    | Replied resp => Ret resp
    end).

(** [response.raise_for_status()]. *)
Definition raise_for_status (resp : response) : io unit :=
  if status_ok resp then Ret tt else Raise HTTPStatusError.

(** [response.json()]. *)
Definition response_json (resp : response) : io json :=
  match body resp with
  | Some j => Ret j
  | None => Raise JSONDecodeError
  end.

(** ** The server *)

Definition METADATA_BASE_URL : str :=
  py "https://datadashboard.health.gov.il/api/content/dashboard".
Definition DATA_BASE_URL : str :=
  py "https://datadashboard.health.gov.il/api".

Definition subject_entry (name description : string) : json :=
  JObj [(py "name", JStr (py name)); (py "description", JStr (py description))].

Definition SUBJECTS_INFO : list (str * json) :=
  [ (py "warCasualties",
     subject_entry "War Casualties"
       "Information about war-related medical cases and emergency support contacts");
    (py "medicalServices",
     subject_entry "Medical Services Availability"
       "Information about availability of various medical services including pharmacies, HMO services, family health centers");
    (py "beaches",
     subject_entry "Beaches"
       "Information about beach conditions and facilities");
    (py "HMO_insured_main",
     subject_entry "HMO Insurance"
       "Information about health insurance through HMOs");
    (py "childKi",
     subject_entry "Child Development"
       "Information about child development services");
    (py "childCheckup",
     subject_entry "Child Checkups"
       "Information about child medical checkup services");
    (py "serviceQuality",
     subject_entry "Service Quality"
       "Quality measurements, patient experience surveys, and service complaints across medical facilities") ].

(** [SUBJECTS = list(SUBJECTS_INFO.keys())]. *)
Definition SUBJECTS : list str := List.map fst SUBJECTS_INFO.

(** [subject in SUBJECTS]. *)
Definition in_subjects (subject : str) : bool :=
  existsb (eqb subject) SUBJECTS.

(** [f"Invalid subject. Must be one of: {', '.join(SUBJECTS)}"]. *)
Definition invalid_subject_message : str :=
  py "Invalid subject. Must be one of: " ++ join (py ", ") SUBJECTS.

(** [f"{METADATA_BASE_URL}/{subject}"] and [f"{DATA_BASE_URL}/{endPointName}"]. *)
Definition metadata_url (subject : str) : str :=
  METADATA_BASE_URL ++ py "/" ++ subject.
Definition data_url (endPointName : str) : str :=
  DATA_BASE_URL ++ py "/" ++ endPointName.

Definition success (rest : list (str * json)) : json :=
  JObj ((py "status", JStr (py "success")) :: rest).

Section Tools.

Local Open Scope result_scope.

(** The subjects comprehension of get_available_subjects. *)
Definition subject_record (entry : str * json) : result json :=
  let (subject_id, info) := entry in
  name <- getitem info (py "name") ;;
  description <- getitem info (py "description") ;;
  Ok (JObj [(py "id", JStr subject_id);
            (py "name", name);
            (py "description", description)]).

Definition get_available_subjects : io json :=
  IO.bind (IO.lift (ResultMonad.mapM subject_record SUBJECTS_INFO)) (fun subjects =>
  Ret (success [(py "data", JObj [(py "subjects", JArr subjects)])])).

(** [card[field].strip()]. *)
Definition stripped_field (card : json) (field : str) : result json :=
  v <- getitem card field ;;
  strip_method v.

(** The body of the loop over the cards of get_metadata. *)
Definition cleaned_card (card : json) : result json :=
  id <- stripped_field card (py "id") ;;
  endPointName <- stripped_field card (py "endPointName") ;;
  apiSrc <- stripped_field card (py "apiSrc") ;;
  transportProject <- stripped_field card (py "transportProject") ;;
  section <- stripped_field card (py "sectionId") ;;
  componentName <- stripped_field card (py "componentName") ;;
  embedLink <-
    (present <- get card (py "embedLink") JNull ;;
     if truthy present
     then (v <- get card (py "embedLink") (JStr []) ;; strip_method v)
     else Ok JNull) ;;
  Ok (JObj [(py "id", id);
            (py "endPointName", endPointName);
            (py "apiSrc", apiSrc);
            (py "transportProject", transportProject);
            (py "section", section);
            (py "componentName", componentName);
            (py "embedLink", embedLink)]).

(** The body of the loop over the sections of get_metadata. *)
Definition cleaned_section (section : json) : result json :=
  kvs <- items section ;;
  Ok (JObj (List.map
              (fun kv => (fst kv,
                          match snd kv with
                          | JStr s => JStr (strip s)
                          | v => v
                          end))
              kvs)).

(** The return statements of get_metadata and of get_links. *)
Definition metadata_result (available_endpoints cleaned_sections : list json) : json :=
  success [(py "data",
            JObj [(py "availableEndpoints", JArr available_endpoints);
                  (py "sections", JArr cleaned_sections)])].

Definition links_result (links : json) : json :=
  success [(py "data", JObj [(py "links", links)])].

(** What get_metadata does with the parsed body. *)
Definition metadata_envelope (parsed : json) : result json :=
  let metadata := clean_json parsed in
  cards_value <- get metadata (py "cards") (JArr []) ;;
  cards <- iter cards_value ;;
  available_endpoints <- ResultMonad.mapM cleaned_card cards ;;
  sections_value <- get metadata (py "sections") (JArr []) ;;
  sections <- iter sections_value ;;
  cleaned_sections <- ResultMonad.mapM cleaned_section sections ;;
  Ok (metadata_result available_endpoints cleaned_sections).

(** The condition of the links comprehension,
    [link["sectionId"] == sectionId]. *)
Definition section_matches (sectionId : option str) (link : json) : result bool :=
  v <- getitem link (py "sectionId") ;;
  Ok (eq_opt_str v sectionId).

(** What get_links does with the parsed body. *)
Definition links_envelope (sectionId : option str) (parsed : json) : result json :=
  let metadata := clean_json parsed in
  links <- get metadata (py "links") (JArr []) ;;
  links <-
    (if supplied sectionId
     then
       candidates <- iter links ;;
       kept <- ResultMonad.filterM (section_matches sectionId) candidates ;;
       Ok (JArr kept)
     else Ok links) ;;
  Ok (links_result links).

(** The return statement of get_data. *)
Definition data_envelope (subject transportProject endPointName : str)
           (data : json) : json :=
  success [(py "metadata",
            JObj [(py "subject", JStr subject);
                  (py "transportProject", JStr transportProject);
                  (py "endpoint", JStr endPointName)]);
           (py "data", data)].

Local Open Scope io_scope.

Definition get_metadata (subject : str) : io json :=
  if negb (in_subjects subject) then Raise (ValueError invalid_subject_message)
  else
    let url := metadata_url subject in
    resp <- client_get url ;;
    _ <- raise_for_status resp ;;
    metadata <- response_json resp ;;
    IO.lift (metadata_envelope metadata).

Definition get_data (subject transportProject endPointName : str) : io json :=
  if negb (in_subjects subject) then Raise (ValueError invalid_subject_message)
  else
    let url := data_url endPointName in
    resp <- client_get url ;;
    _ <- raise_for_status resp ;;
    parsed <- response_json resp ;;
    let data := clean_json parsed in
    Ret (data_envelope subject transportProject endPointName data).

Definition get_links (subject : str) (sectionId : option str) : io json :=
  if negb (in_subjects subject) then Raise (ValueError invalid_subject_message)
  else
    let url := metadata_url subject in
    resp <- client_get url ;;
    _ <- raise_for_status resp ;;
    parsed <- response_json resp ;;
    IO.lift (links_envelope sectionId parsed).

End Tools.

(** The tool surface registered with [mcp.tool]. *)
Inductive tool_call : Type :=
| GetAvailableSubjects
| GetMetadata (subject : str)
| GetData (subject transportProject endPointName : str)
| GetLinks (subject : str) (sectionId : option str).

Definition call (c : tool_call) : io json :=
  match c with
  | GetAvailableSubjects => get_available_subjects
  | GetMetadata subject => get_metadata subject
  | GetData subject transportProject endPointName =>
      get_data subject transportProject endPointName
  | GetLinks subject sectionId => get_links subject sectionId
  end.

(** * Vocabulary of the properties *)

(** [s] is whitespace only. *)
Definition spaces (s : str) : Prop := Forall (fun c => isspace c = true) s.

(** [s] does not begin with whitespace. *)
Definition clean_head (s : str) : Prop :=
  match s with
  | [] => True
  | c :: _ => isspace c = false
  end.

(** [s] does not end with whitespace. *)
Definition clean_last (s : str) : Prop := clean_head (rev s).

(** The spec's description of the trim pass, as a relation between a tree
    and its trimmed form: mappings keep their keys, sequences their length
    and order, scalars other than strings are untouched, and a string loses
    whitespace at its two ends and nothing else. *)
Unset Elimination Schemes.
Inductive trimmed : json -> json -> Prop :=
| trimmed_null : trimmed JNull JNull
| trimmed_bool b : trimmed (JBool b) (JBool b)
| trimmed_int z : trimmed (JInt z) (JInt z)
| trimmed_float f : trimmed (JFloat f) (JFloat f)
| trimmed_str s s' l r :
    s = l ++ s' ++ r ->
    spaces l -> spaces r ->
    clean_head s' -> clean_last s' ->
    trimmed (JStr s) (JStr s')
| trimmed_arr items items' :
    Forall2 trimmed items items' ->
    trimmed (JArr items) (JArr items')
| trimmed_obj fields fields' :
    Forall2 (fun kv kv' => fst kv = fst kv' /\ trimmed (snd kv) (snd kv'))
            fields fields' ->
    trimmed (JObj fields) (JObj fields').
Set Elimination Schemes.

Definition non_string_scalar (obj : json) : Prop :=
  match obj with
  | JNull | JBool _ | JInt _ | JFloat _ => True
  | JStr _ | JArr _ | JObj _ => False
  end.

(** What a tool sees of one reply once [raise_for_status] and
    [response.json()] have gone through. *)
Definition parsed_body (r : reply) : result json :=
  match r with
  | Failed => Err RequestError
  | Replied resp =>
      if status_ok resp
      then match body resp with
           | Some j => Ok j
           | None => Err JSONDecodeError
           end
      else Err HTTPStatusError
  end.

(** A reply with a success status and a JSON body. *)
Definition replied_json (doc : json) : reply :=
  Replied {| status_ok := true; body := Some doc |}.

(** The filter of getLinks in the spec's words: with a sectionId, the links
    whose sectionId field equals it; without, all of them. *)
Definition spec_links (sectionId : option str) (links : list json) : list json :=
  match sectionId with
  | Some sid =>
      List.filter
        (fun link => match getitem link (py "sectionId") with
                     | Ok v => eq_str v sid
                     | Err _ => false
                     end)
        links
  | None => links
  end.

(** [l] is [m] with some elements left out, the others in their order. *)
Inductive subseq {A : Type} : list A -> list A -> Prop :=
| subseq_nil : subseq [] []
| subseq_skip a l m : subseq l m -> subseq l (a :: m)
| subseq_keep a l m : subseq l m -> subseq (a :: l) (a :: m).

(** The fields a card is subscripted with, in the order of the source. *)
Definition required_card_fields : list str :=
  [py "id"; py "endPointName"; py "apiSrc"; py "transportProject";
   py "sectionId"; py "componentName"].

(** The field [key] of an envelope or of any mapping. *)
Definition field (key : string) (obj : json) : option json :=
  match obj with
  | JObj d => lookup (py key) d
  | _ => None
  end.

(** Every string value of [obj], at any depth, is its own [strip]: no
    whitespace at either end.  Keys are not looked at. *)
Fixpoint strings_trimmed (obj : json) : bool :=
  match obj with
  | JStr s => eqb (strip s) s
  | JArr items => forallb strings_trimmed items
  | JObj fields => forallb (fun kv => strings_trimmed (snd kv)) fields
  | _ => true
  end.

(** How one GET can fail before a tool sees a parsed body: no response, a
    response with an error status (whatever its body), a body that is not
    JSON. *)
Inductive fails_with : reply -> exn -> Prop :=
| fails_transport : fails_with Failed RequestError
| fails_status body :
    fails_with (Replied {| status_ok := false; body := body |}) HTTPStatusError
| fails_decode :
    fails_with (Replied {| status_ok := true; body := None |}) JSONDecodeError.

(** A card the loop of get_metadata accepts: a mapping whose six subscripted
    fields are strings and whose embedLink, when present, is falsy or a
    string. *)
Definition well_formed_card (card : json) : Prop :=
  exists d,
    card = JObj d
    /\ Forall (fun f => exists s, lookup f d = Some (JStr s)) required_card_fields
    /\ match lookup (py "embedLink") d with
       | None => True
       | Some v => truthy v = false \/ exists s, v = JStr s
       end.

Definition is_mapping (obj : json) : Prop := exists d, obj = JObj d.

(** The record [r] built from [card] carries under [to] the stripped string
    that [card] has under [from]. *)
Definition copies (card r : json) (from to : string) : Prop :=
  exists s, field from card = Some (JStr s) /\ field to r = Some (JStr (strip s)).

(** What the embedLink entry of a record is, from the card's own entry. *)
Definition embed_link (d : list (str * json)) : result json :=
  match lookup (py "embedLink") d with
  | None => Ok JNull
  | Some v =>
      if truthy v
      then match v with JStr s => Ok (JStr (strip s)) | _ => Err AttributeError end
      else Ok JNull
  end.

(** A metadata document of the shape the upstream serves, with whitespace
    around some values. *)
Definition sample_card : json :=
  JObj [(py "id", JStr (py " c1 "));
        (py "endPointName", JStr (py "beachStatus "));
        (py "apiSrc", JStr (py "src"));
        (py "transportProject", JStr (py "tp"));
        (py "sectionId", JStr (py " S1"));
        (py "componentName", JStr (py "table"));
        (py "embedLink", JStr (py "   "))].

Definition sample_document : json :=
  JObj [(py "cards", JArr [sample_card]);
        (py "sections",
         JArr [JObj [(py "id", JStr (py "S1 "));
                     (py "order", JInt 1)]]);
        (py "links",
         JArr [JObj [(py "sectionId", JStr (py " S1 "));
                     (py "url", JStr (py "https://example.org/a"))];
               JObj [(py "sectionId", JStr (py "S2"))]])].

Definition sample_upstream : str -> reply :=
  fun _ => replied_json sample_document.

(** The array a trimmed document has under [key] (empty when it has
    none). *)
Definition trimmed_array (doc : json) (key : string) : list json :=
  match get (clean_json doc) (py key) (JArr []) with
  | Ok (JArr l) => l
  | _ => []
  end.

(** What a run returned (null when it raised). *)
Definition returned (r : result json) : json :=
  match r with
  | Ok v => v
  | Err _ => JNull
  end.

(** The record get_available_subjects makes of one catalog entry. *)
Definition listed_record (entry : str * json) : json :=
  JObj [(py "id", JStr (fst entry));
        (py "name", returned (getitem (snd entry) (py "name")));
        (py "description", returned (getitem (snd entry) (py "description")))].

(** * Properties *)

(** ** Strings *)

Module StrFacts.

Lemma eqb_eq (a b : str) : eqb a b = true <-> a = b.
Proof.
  revert b. induction a as [|x a IH]; intros [|y b]; simpl;
    try (split; [discriminate | discriminate]); [tauto|].
  rewrite andb_true_iff, N.eqb_eq, IH. split.
  - intros [-> ->]. reflexivity.
  - intros E. inversion E. auto.
Qed.

Lemma eqb_refl (a : str) : eqb a a = true.
Proof. now apply eqb_eq. Qed.

Lemma eqb_neq (a b : str) : eqb a b = false <-> a <> b.
Proof.
  rewrite <- eqb_eq. destruct (eqb a b); split; congruence.
Qed.

Lemma lstrip_split (s : str) :
  exists l, s = l ++ lstrip s /\ spaces l.
Proof.
  induction s as [|c t [l [E Hl]]]; simpl.
  - exists []. split; [reflexivity | constructor].
  - destruct (isspace c) eqn:Hc.
    + exists (c :: l). split; [simpl; congruence | now constructor].
    + exists []. split; [reflexivity | constructor].
Qed.

Lemma lstrip_clean_head (s : str) : clean_head (lstrip s).
Proof.
  induction s as [|c t IH]; simpl; [exact I|].
  destruct (isspace c) eqn:Hc; [exact IH | exact Hc].
Qed.

Lemma lstrip_fixed (s : str) : clean_head s -> lstrip s = s.
Proof.
  destruct s as [|c t]; simpl; [reflexivity|].
  intros ->. reflexivity.
Qed.

Lemma lstrip_snoc (s : str) (c : char) :
  isspace c = false -> lstrip (s ++ [c]) = lstrip s ++ [c].
Proof.
  intros Hc. induction s as [|x t IH]; simpl.
  - now rewrite Hc.
  - destruct (isspace x); [exact IH | reflexivity].
Qed.

Lemma rstrip_split (s : str) :
  exists r, s = rstrip s ++ r /\ spaces r.
Proof.
  unfold rstrip. destruct (lstrip_split (rev s)) as [l [E Hl]].
  exists (rev l). split.
  - rewrite <- rev_app_distr, <- E. symmetry. apply rev_involutive.
  - apply Forall_rev. exact Hl.
Qed.

Lemma rstrip_clean_last (s : str) : clean_last (rstrip s).
Proof.
  unfold clean_last, rstrip. rewrite rev_involutive. apply lstrip_clean_head.
Qed.

Lemma rstrip_fixed (s : str) : clean_last s -> rstrip s = s.
Proof.
  unfold clean_last, rstrip. intros H.
  rewrite (lstrip_fixed _ H). apply rev_involutive.
Qed.

(** Trimming the right end keeps a clean left end. *)
Lemma rstrip_clean_head (s : str) : clean_head s -> clean_head (rstrip s).
Proof.
  destruct s as [|c t]; [intros _; exact I|].
  simpl. intros Hc. unfold rstrip. simpl.
  rewrite (lstrip_snoc _ _ Hc), rev_app_distr. simpl. exact Hc.
Qed.

Lemma strip_clean_head (s : str) : clean_head (strip s).
Proof. apply rstrip_clean_head, lstrip_clean_head. Qed.

Lemma strip_clean_last (s : str) : clean_last (strip s).
Proof. apply rstrip_clean_last. Qed.

Lemma strip_fixed (s : str) : clean_head s -> clean_last s -> strip s = s.
Proof.
  intros Hh Hl. unfold strip. rewrite (lstrip_fixed _ Hh). now apply rstrip_fixed.
Qed.

Lemma strip_idempotent (s : str) : strip (strip s) = strip s.
Proof. apply strip_fixed; [apply strip_clean_head | apply strip_clean_last]. Qed.

Lemma strip_split (s : str) :
  exists l r, s = l ++ strip s ++ r /\ spaces l /\ spaces r.
Proof.
  destruct (lstrip_split s) as [l [El Hl]].
  destruct (rstrip_split (lstrip s)) as [r [Er Hr]].
  exists l, r. unfold strip. rewrite <- Er. auto.
Qed.

End StrFacts.

(** ** JSON trees *)

Section JsonInduction.

Variable P : json -> Prop.
Hypothesis Hnull : P JNull.
Hypothesis Hbool : forall b, P (JBool b).
Hypothesis Hint : forall z, P (JInt z).
Hypothesis Hfloat : forall f, P (JFloat f).
Hypothesis Hstr : forall s, P (JStr s).
Hypothesis Harr : forall items, Forall P items -> P (JArr items).
Hypothesis Hobj :
  forall fields, Forall (fun kv => P (snd kv)) fields -> P (JObj fields).

(** Structural induction through the lists of children. *)
Lemma json_ind : forall j, P j.
Proof.
  fix IH 1. intros [ | b | z | f | s | items | fields ].
  - exact Hnull.
  - apply Hbool.
  - apply Hint.
  - apply Hfloat.
  - apply Hstr.
  - apply Harr. induction items as [|v rest IHrest]; constructor.
    + apply IH.
    + exact IHrest.
  - apply Hobj. induction fields as [|[k v] rest IHrest]; constructor.
    + apply IH.
    + exact IHrest.
Qed.

End JsonInduction.

Module CleanJson.

Import StrFacts.

Lemma map_fixed {A} (f : A -> A) (l : list A) :
  Forall (fun a => f a = a) l -> List.map f l = l.
Proof.
  induction 1 as [|a t Ha _ IH]; simpl; congruence.
Qed.

Lemma idempotent (T : json) : clean_json (clean_json T) = clean_json T.
Proof.
  induction T as [ | | | | s | items IH | fields IH ] using json_ind;
    simpl; try reflexivity.
  - now rewrite strip_idempotent.
  - f_equal. rewrite map_map. apply map_ext_Forall. exact IH.
  - f_equal. rewrite map_map. apply map_ext_Forall.
    eapply Forall_impl; [|exact IH]. intros [k v]; simpl. congruence.
Qed.

Lemma trimmed_clean_json (T : json) : trimmed T (clean_json T).
Proof.
  induction T as [ | | | | s | items IH | fields IH ] using json_ind;
    simpl; try constructor.
  - destruct (strip_split s) as [l [r [E [Hl Hr]]]].
    apply trimmed_str with (l := l) (r := r); auto.
    + apply strip_clean_head.
    + apply strip_clean_last.
  - induction IH; simpl; constructor; auto.
  - induction IH; simpl; constructor; auto.
Qed.

Lemma keys_preserved (fields : list (str * json)) :
  List.map fst (List.map (fun kv => (fst kv, clean_json (snd kv))) fields)
  = List.map fst fields.
Proof. rewrite map_map. reflexivity. Qed.

Lemma sequence_opt_map {A B} (f : A -> option B) (g : A -> B) (l : list A) :
  Forall (fun a => f a = Some (g a)) l ->
  sequence_opt (List.map f l) = Some (List.map g l).
Proof.
  induction 1 as [|a t Ha _ IH]; simpl; [reflexivity|].
  now rewrite Ha, IH.
Qed.

Lemma combine_fst_map {A B C} (f : A -> B) (g : A -> C) (l : list A) :
  List.combine (List.map f l) (List.map g l) = List.map (fun a => (f a, g a)) l.
Proof. induction l; simpl; congruence. Qed.

Lemma fold_max_bound {A} (h : A -> nat) (l : list A) (d : nat) :
  fold_right (fun a m => Nat.max (h a) m) 0 l <= d ->
  Forall (fun a => h a <= d) l.
Proof.
  induction l as [|a t IH]; simpl; intros H; constructor.
  - lia.
  - apply IH. lia.
Qed.

Lemma Forall_modus {A} (P Q : A -> Prop) (l : list A) :
  Forall (fun a => P a -> Q a) l -> Forall P l -> Forall Q l.
Proof.
  induction 1; intros H'; inversion H'; subst; constructor; auto.
Qed.

(** Enough frames give the result of [clean_json]. *)
Lemma depth_enough (T : json) :
  forall d, height T <= d -> clean_json_depth d T = Some (clean_json T).
Proof.
  induction T as [ | | | | s | items IH | fields IH ] using json_ind;
    intros [|d] Hd; simpl in *; try lia; try reflexivity.
  - apply le_S_n, fold_max_bound in Hd.
    rewrite (sequence_opt_map _ clean_json); [reflexivity|].
    eapply Forall_modus; [|exact Hd].
    eapply Forall_impl; [|exact IH]. intros v Hv; apply Hv.
  - apply le_S_n, (fold_max_bound (fun kv => height (snd kv))) in Hd.
    rewrite (sequence_opt_map _ (fun kv => clean_json (snd kv))).
    + now rewrite combine_fst_map.
    + eapply Forall_modus; [|exact Hd].
      eapply Forall_impl; [|exact IH]. intros v Hv; apply Hv.
Qed.

(** Fewer frames than the height of the tree do not. *)
Lemma depth_short (T : json) :
  forall d, d < height T -> clean_json_depth d T = None.
Proof.
  induction T as [ | | | | s | items IH | fields IH ] using json_ind;
    intros [|d] Hd; simpl in *; try lia; try reflexivity.
  - apply PeanoNat.lt_S_n in Hd.
    induction IH as [|v rest Hv _ IHrest]; simpl in *; [lia|].
    destruct (Nat.max_spec (height v)
                (fold_right (fun v m => Nat.max (height v) m) 0 rest))
      as [[_ E]|[_ E]]; rewrite E in Hd.
    + destruct (clean_json_depth d v); [|reflexivity].
      specialize (IHrest Hd).
      destruct (sequence_opt (List.map (clean_json_depth d) rest));
        [discriminate | reflexivity].
    + now rewrite (Hv d Hd).
  - apply PeanoNat.lt_S_n in Hd.
    induction IH as [|kv rest Hv _ IHrest]; simpl in *; [lia|].
    destruct (Nat.max_spec (height (snd kv))
                (fold_right (fun kv m => Nat.max (height (snd kv)) m) 0 rest))
      as [[_ E]|[_ E]]; rewrite E in Hd.
    + destruct (clean_json_depth d (snd kv)); [|reflexivity].
      specialize (IHrest Hd).
      destruct (sequence_opt
                  (List.map (fun kv => clean_json_depth d (snd kv)) rest));
        [discriminate | reflexivity].
    + now rewrite (Hv d Hd).
Qed.

End CleanJson.

(** ** The trim pass: claims *)

(** C1. [clean_json] is idempotent: trimming a JSON value twice gives the
    same value as trimming it once. *)
Theorem clean_json_idempotent :
  forall T : json, clean_json (clean_json T) = clean_json T.
Proof. exact CleanJson.idempotent. Qed.

(** C2. [clean_json] preserves structure.  A mapping becomes a mapping with
    the same keys in the same order, each value trimmed; a sequence becomes
    a sequence of the same length, each element trimmed in place; a scalar
    that is not a string is returned as it is; a string loses a run of
    whitespace at each end and keeps everything in between.  The relation
    [trimmed] says the same for the whole tree. *)
Theorem clean_json_preserves_structure :
  (forall T, trimmed T (clean_json T))
  /\ (forall fields, exists fields',
        clean_json (JObj fields) = JObj fields'
        /\ List.map fst fields' = List.map fst fields
        /\ Forall2 (fun kv kv' => snd kv' = clean_json (snd kv)) fields fields')
  /\ (forall items, exists items',
        clean_json (JArr items) = JArr items'
        /\ List.length items' = List.length items
        /\ forall i, nth_error items' i = option_map clean_json (nth_error items i))
  /\ (forall T, non_string_scalar T -> clean_json T = T)
  /\ (forall s, exists l s' r,
        clean_json (JStr s) = JStr s'
        /\ s = l ++ s' ++ r
        /\ spaces l /\ spaces r
        /\ clean_head s' /\ clean_last s').
Proof.
  split; [exact CleanJson.trimmed_clean_json|].
  split.
  { intros fields. eexists. split; [reflexivity|]. split.
    - apply CleanJson.keys_preserved.
    - induction fields; simpl; constructor; auto. }
  split.
  { intros items. eexists. split; [reflexivity|]. split.
    - apply length_map.
    - intros i. apply nth_error_map. }
  split.
  { intros [] H; simpl in *; (reflexivity || contradiction). }
  intros s. destruct (StrFacts.strip_split s) as [l [r [E [Hl Hr]]]].
  exists l, (strip s), r. simpl.
  repeat split; auto using StrFacts.strip_clean_head, StrFacts.strip_clean_last.
Qed.

(** C9. [clean_json] terminates on every finite JSON tree: as many frames
    as the tree is high, or any number more, let the recursion finish, and
    it finishes with the value of [clean_json]. *)
Theorem clean_json_terminates :
  forall (T : json) (spare : nat),
    clean_json_depth (height T + spare) T = Some (clean_json T).
Proof.
  intros T spare. apply CleanJson.depth_enough. lia.
Qed.

(** ** The tools *)

Module Gateway.

Import StrFacts.

Lemma in_subjects_In (subject : str) :
  in_subjects subject = true <-> In subject SUBJECTS.
Proof.
  unfold in_subjects. rewrite existsb_exists. split.
  - intros [x [Hx E]]. apply eqb_eq in E. now subst.
  - intros H. exists subject. split; [exact H | apply eqb_refl].
Qed.

Lemma not_in_subjects (subject : str) :
  ~ In subject SUBJECTS -> in_subjects subject = false.
Proof.
  intros H. destruct (in_subjects subject) eqn:E; [|reflexivity].
  apply in_subjects_In in E. contradiction.
Qed.

Lemma run_lift {A} (upstream : str -> reply) (r : result A) :
  IO.run upstream (IO.lift r) = ([], r).
Proof. destruct r; reflexivity. Qed.

(** One GET, then a pure continuation on the parsed body. *)
Lemma run_fetch {A} (upstream : str -> reply) (url : str) (k : json -> result A) :
  IO.run upstream
    (IO.bind (client_get url) (fun resp =>
     IO.bind (raise_for_status resp) (fun _ =>
     IO.bind (response_json resp) (fun parsed => IO.lift (k parsed)))))
  = ([url], ResultMonad.bind (parsed_body (upstream url)) k).
Proof.
  simpl. destruct (upstream url) as [|[[|] [j|]]]; simpl; try reflexivity.
  now rewrite run_lift.
Qed.

Lemma run_get_metadata (upstream : str -> reply) (subject : str) :
  In subject SUBJECTS ->
  IO.run upstream (get_metadata subject)
  = ([metadata_url subject],
     ResultMonad.bind (parsed_body (upstream (metadata_url subject)))
                      metadata_envelope).
Proof.
  intros H. apply in_subjects_In in H. unfold get_metadata. rewrite H.
  apply run_fetch.
Qed.

Lemma run_get_links (upstream : str -> reply) (subject : str) (sectionId : option str) :
  In subject SUBJECTS ->
  IO.run upstream (get_links subject sectionId)
  = ([metadata_url subject],
     ResultMonad.bind (parsed_body (upstream (metadata_url subject)))
                      (links_envelope sectionId)).
Proof.
  intros H. apply in_subjects_In in H. unfold get_links. rewrite H.
  apply run_fetch.
Qed.

Lemma run_get_data (upstream : str -> reply)
      (subject transportProject endPointName : str) :
  In subject SUBJECTS ->
  IO.run upstream (get_data subject transportProject endPointName)
  = ([data_url endPointName],
     ResultMonad.bind (parsed_body (upstream (data_url endPointName)))
       (fun parsed =>
          Ok (data_envelope subject transportProject endPointName
                            (clean_json parsed)))).
Proof.
  intros H. apply in_subjects_In in H. unfold get_data. rewrite H.
  simpl. destruct (upstream (data_url endPointName)) as [|[[|] [j|]]];
    reflexivity.
Qed.

Lemma bind_ok {A B} (r : result A) (k : A -> result B) (b : B) :
  ResultMonad.bind r k = Ok b -> exists a, r = Ok a /\ k a = Ok b.
Proof. destruct r; simpl; [eauto | discriminate]. Qed.

Lemma metadata_envelope_ok (parsed v : json) :
  metadata_envelope parsed = Ok v ->
  exists endpoints sections, v = metadata_result endpoints sections.
Proof.
  unfold metadata_envelope. intros H.
  repeat (apply bind_ok in H; destruct H as [? [_ H]]).
  inversion H. eauto.
Qed.

Lemma links_envelope_ok (sectionId : option str) (parsed v : json) :
  links_envelope sectionId parsed = Ok v ->
  exists links, v = links_result links.
Proof.
  unfold links_envelope. intros H.
  repeat (apply bind_ok in H; destruct H as [? [_ H]]).
  inversion H. eauto.
Qed.

Lemma subjects_nodup : NoDup SUBJECTS.
Proof.
  apply (NoDup_count_occ (list_eq_dec N.eq_dec)). intros x.
  destruct (in_dec (list_eq_dec N.eq_dec) x SUBJECTS) as [H|H].
  - vm_compute in H. intuition (subst; vm_compute; auto).
  - apply (count_occ_not_In (list_eq_dec N.eq_dec)) in H. rewrite H. lia.
Qed.

End Gateway.

(** ** The tools: claims *)

(** C5. A subject outside the catalog makes get_metadata, get_data and
    get_links raise ValueError (the spec's InvalidArgument) with no request
    issued, whatever the upstream; the message is the fixed sentence that
    lists the 7 subject ids, each of which occurs in it. *)
Theorem invalid_subject_rejected
  (upstream : str -> reply)
  (subject transportProject endPointName : str) (sectionId : option str) :
  ~ In subject SUBJECTS ->
  IO.run upstream (get_metadata subject)
    = ([], Err (ValueError invalid_subject_message))
  /\ IO.run upstream (get_data subject transportProject endPointName)
    = ([], Err (ValueError invalid_subject_message))
  /\ IO.run upstream (get_links subject sectionId)
    = ([], Err (ValueError invalid_subject_message))
  /\ invalid_subject_message
    = py "Invalid subject. Must be one of: warCasualties, medicalServices, beaches, HMO_insured_main, childKi, childCheckup, serviceQuality"
  /\ List.length SUBJECTS = 7
  /\ NoDup SUBJECTS
  /\ Forall (fun id => contains invalid_subject_message id = true) SUBJECTS.
Proof.
  intros H. apply Gateway.not_in_subjects in H.
  unfold get_metadata, get_data, get_links. rewrite H. simpl.
  repeat split; try reflexivity.
  - exact Gateway.subjects_nodup.
  - vm_compute. repeat constructor.
Qed.

Lemma invalid_subject_rejected_witness :
  IO.run (fun _ => Failed) (get_metadata (py "not_a_subject"))
  = ([], Err (ValueError invalid_subject_message)).
Proof.
  refine (proj1 (invalid_subject_rejected (fun _ => Failed)
                   (py "not_a_subject") (py "p1") (py "e") None _)).
  vm_compute. intros H.
  repeat (destruct H as [H|H]; [discriminate H|]). exact H.
Defined.

(** C8. get_available_subjects has no parameter, issues no request and
    returns, whatever the upstream: its envelope carries one record per
    catalog entry, 7 in all, in the order of the catalog, each made of the
    entry's id, name and description, with name and description non-empty. *)
Theorem get_available_subjects_lists_catalog (upstream : str -> reply) :
  exists subjects,
    IO.run upstream get_available_subjects
    = ([], Ok (success [(py "data", JObj [(py "subjects", JArr subjects)])]))
    /\ List.length subjects = 7
    /\ List.length SUBJECTS_INFO = 7
    /\ Forall2
         (fun entry record =>
            exists name description,
              snd entry = JObj [(py "name", JStr name);
                                (py "description", JStr description)]
              /\ record = JObj [(py "id", JStr (fst entry));
                                (py "name", JStr name);
                                (py "description", JStr description)]
              /\ name <> [] /\ description <> [])
         SUBJECTS_INFO subjects.
Proof.
  eexists. split; [cbv; reflexivity|].
  split; [reflexivity|]. split; [reflexivity|].
  unfold SUBJECTS_INFO, subject_entry.
  repeat (constructor; [do 2 eexists; repeat split; discriminate|]).
  constructor.
Qed.

(** C6. Whenever one of the four tools returns, what it returns is a
    mapping whose status is the string success and which carries a payload
    under data; for get_available_subjects, get_metadata and get_links the
    payload is itself a mapping, for get_data it is the trimmed body. *)
Theorem success_envelope (upstream : str -> reply) (c : tool_call) (v : json) :
  IO.outcome upstream (call c) = Ok v ->
  field "status" v = Some (JStr (py "success"))
  /\ exists payload,
       field "data" v = Some payload
       /\ match c with
          | GetData _ _ endPointName =>
              exists parsed,
                parsed_body (upstream (data_url endPointName)) = Ok parsed
                /\ payload = clean_json parsed
          | _ => exists d, payload = JObj d
          end.
Proof.
  unfold IO.outcome. destruct c as [ | s | s tp ep | s sid ]; simpl; intros H.
  - cbv in H. inversion H. split; [reflexivity|]. eexists. split; [reflexivity|].
    eexists; reflexivity.
  - destruct (in_dec (list_eq_dec N.eq_dec) s SUBJECTS) as [Hs|Hs].
    + rewrite (Gateway.run_get_metadata _ _ Hs) in H. simpl in H.
      apply Gateway.bind_ok in H. destruct H as [parsed [_ H]].
      apply Gateway.metadata_envelope_ok in H. destruct H as [e [t ->]].
      split; [reflexivity|]. eexists. split; [reflexivity|]. eexists; reflexivity.
    + apply Gateway.not_in_subjects in Hs. unfold get_metadata in H.
      rewrite Hs in H. discriminate H.
  - destruct (in_dec (list_eq_dec N.eq_dec) s SUBJECTS) as [Hs|Hs].
    + rewrite (Gateway.run_get_data _ _ _ _ Hs) in H. simpl in H.
      apply Gateway.bind_ok in H. destruct H as [parsed [Hp H]].
      inversion H. split; [reflexivity|]. eexists. split; [reflexivity|].
      exists parsed. auto.
    + apply Gateway.not_in_subjects in Hs. unfold get_data in H.
      rewrite Hs in H. discriminate H.
  - destruct (in_dec (list_eq_dec N.eq_dec) s SUBJECTS) as [Hs|Hs].
    + rewrite (Gateway.run_get_links _ _ _ Hs) in H. simpl in H.
      apply Gateway.bind_ok in H. destruct H as [parsed [_ H]].
      apply Gateway.links_envelope_ok in H. destruct H as [l ->].
      split; [reflexivity|]. eexists. split; [reflexivity|]. eexists; reflexivity.
    + apply Gateway.not_in_subjects in Hs. unfold get_links in H.
      rewrite Hs in H. discriminate H.
Qed.

Lemma success_envelope_witness :
  field "status" (metadata_result [] []) = Some (JStr (py "success"))
  /\ exists payload,
       field "data" (metadata_result [] []) = Some payload
       /\ exists d, payload = JObj d.
Proof.
  apply (success_envelope (fun _ => replied_json (JObj []))
           (GetMetadata (py "beaches"))).
  vm_compute. reflexivity.
Defined.

(** C4. For a valid subject, two calls of get_data that differ only in
    transportProject issue the same single GET, to the URL made from
    endPointName alone, and end alike: both raise the same exception, or
    both return the envelope built from the same trimmed body, in which
    transportProject occurs once, as the echoed metadata field. *)
Theorem get_data_ignores_transportProject
  (upstream : str -> reply) (subject tp1 tp2 endPointName : str) :
  In subject SUBJECTS ->
  IO.requests upstream (get_data subject tp1 endPointName)
    = [data_url endPointName]
  /\ IO.requests upstream (get_data subject tp2 endPointName)
    = [data_url endPointName]
  /\ ((exists e,
         IO.outcome upstream (get_data subject tp1 endPointName) = Err e
         /\ IO.outcome upstream (get_data subject tp2 endPointName) = Err e)
      \/ (exists data,
            IO.outcome upstream (get_data subject tp1 endPointName)
              = Ok (data_envelope subject tp1 endPointName data)
            /\ IO.outcome upstream (get_data subject tp2 endPointName)
              = Ok (data_envelope subject tp2 endPointName data))).
Proof.
  intros Hs. unfold IO.requests, IO.outcome.
  rewrite !(Gateway.run_get_data upstream _ _ _ Hs). simpl.
  split; [reflexivity|]. split; [reflexivity|].
  destruct (parsed_body (upstream (data_url endPointName))) as [parsed|e]; simpl.
  - right. exists (clean_json parsed). split; reflexivity.
  - left. exists e. split; reflexivity.
Qed.

Lemma get_data_ignores_transportProject_witness :
  IO.requests (fun _ => replied_json (JStr (py " ok ")))
              (get_data (py "beaches") (py "p1") (py "someEndpoint"))
  = [data_url (py "someEndpoint")].
Proof.
  refine (proj1 (get_data_ignores_transportProject
                   (fun _ => replied_json (JStr (py " ok ")))
                   (py "beaches") (py "p1") (py "p2") (py "someEndpoint") _)).
  vm_compute. right. right. left. reflexivity.
Defined.

(** C10. get_links with the empty string for sectionId is get_links with
    no sectionId: same request, same outcome, the links value of the
    trimmed document returned as it is.  The filter runs only for a
    sectionId that is a non-empty string. *)
Theorem get_links_empty_sectionId_unfiltered :
  (forall (upstream : str -> reply) (subject : str),
      IO.run upstream (get_links subject (Some []))
      = IO.run upstream (get_links subject None))
  /\ (forall parsed,
        links_envelope (Some []) parsed = links_envelope None parsed
        /\ links_envelope None parsed
           = ResultMonad.bind (get (clean_json parsed) (py "links") (JArr []))
               (fun links => Ok (links_result links)))
  /\ (forall sectionId, supplied sectionId = true <->
                        exists c rest, sectionId = Some (c :: rest)).
Proof.
  split; [reflexivity|]. split.
  - intros parsed. split; [reflexivity|].
    unfold links_envelope. simpl.
    destruct (get (clean_json parsed) (py "links") (JArr [])); reflexivity.
  - intros [[|c rest]|]; simpl; split; try discriminate; eauto.
    + intros [c [rest H]]. discriminate H.
    + intros [c [rest H]]. discriminate H.
Qed.

(** ** Filtering links and subscripting cards *)

Module Lookups.

Import ResultMonad.

Lemma filterM_total {A} (p : A -> result bool) (l : list A) :
  Forall (fun a => exists b, p a = Ok b) l ->
  filterM p l
  = Ok (List.filter (fun a => match p a with Ok b => b | Err _ => false end) l).
Proof.
  induction 1 as [|a t [b Hb] _ IH]; simpl; [reflexivity|].
  rewrite Hb, IH. simpl. destruct b; reflexivity.
Qed.

Lemma subseq_filter {A} (f : A -> bool) (l : list A) :
  subseq (List.filter f l) l.
Proof.
  induction l as [|a t IH]; simpl; [constructor|].
  destruct (f a); constructor; exact IH.
Qed.

Lemma subseq_refl {A} (l : list A) : subseq l l.
Proof. induction l; constructor; assumption. Qed.

(** A loop stops at the first element that raises. *)
Lemma mapM_first_error {A B} (f : A -> result B) (pre post : list A) (a : A) (e : exn) :
  Forall (fun x => exists b, f x = Ok b) pre ->
  f a = Err e ->
  mapM f (pre ++ a :: post) = Err e.
Proof.
  intros Hpre Ha. induction Hpre as [|x t [b Hb] _ IH]; simpl.
  - now rewrite Ha.
  - now rewrite Hb, IH.
Qed.

Lemma mapM_some_error {A B} (f : A -> result B) (l : list A) (a : A) (e : exn) :
  In a l -> f a = Err e -> exists e', mapM f l = Err e'.
Proof.
  induction l as [|x t IH]; simpl; [contradiction|].
  intros [->|Hin] Ha.
  - rewrite Ha. simpl. eauto.
  - destruct (f x); simpl; [|eauto].
    destruct (IH Hin Ha) as [e' ->]. simpl. eauto.
Qed.

Lemma filterM_first_error {A} (p : A -> result bool) (pre post : list A) (a : A) (e : exn) :
  Forall (fun x => exists b, p x = Ok b) pre ->
  p a = Err e ->
  filterM p (pre ++ a :: post) = Err e.
Proof.
  intros Hpre Ha. induction Hpre as [|x t [b Hb] _ IH]; simpl.
  - now rewrite Ha.
  - rewrite Hb. simpl. now rewrite IH.
Qed.

Lemma filterM_some_error {A} (p : A -> result bool) (l : list A) (a : A) (e : exn) :
  In a l -> p a = Err e -> exists e', filterM p l = Err e'.
Proof.
  induction l as [|x t IH]; simpl; [contradiction|].
  intros [->|Hin] Ha.
  - rewrite Ha. simpl. eauto.
  - destruct (p x); simpl; [|eauto].
    destruct (IH Hin Ha) as [e' ->]. simpl. eauto.
Qed.

Lemma stripped_field_missing (card : list (str * json)) (f : str) :
  lookup f card = None ->
  stripped_field (JObj card) f = Err (KeyError f).
Proof. unfold stripped_field. simpl. now intros ->. Qed.

Lemma stripped_field_string (card : list (str * json)) (f s : str) :
  lookup f card = Some (JStr s) ->
  stripped_field (JObj card) f = Ok (JStr (strip s)).
Proof. unfold stripped_field. simpl. now intros ->. Qed.

(** A card without one of the subscripted fields never becomes a record. *)
Lemma cleaned_card_missing (card : list (str * json)) (f : str) :
  In f required_card_fields -> lookup f card = None ->
  exists e, cleaned_card (JObj card) = Err e.
Proof.
  intros Hf Hmiss. apply stripped_field_missing in Hmiss.
  unfold cleaned_card.
  simpl in Hf.
  repeat (destruct Hf as [<-|Hf];
          [repeat (rewrite Hmiss; simpl; eauto);
           repeat match goal with
                  | |- context [stripped_field (JObj card) ?g] =>
                      lazymatch type of Hmiss with
                      | stripped_field _ g = _ => rewrite Hmiss; simpl; eauto
                      | _ => destruct (stripped_field (JObj card) g); simpl; eauto
                      end
                  end|]).
  contradiction.
Qed.

(** Fields known to hold strings are subscripted and stripped without
    an exception. *)
Ltac pass_present_fields :=
  repeat match goal with
         | H : Forall _ (_ :: _) |- _ => inversion H; subst; clear H
         | H : exists s, lookup _ _ = Some (JStr s) |- _ =>
             destruct H as [? H]; apply stripped_field_string in H
         end;
  repeat match goal with
         | H : stripped_field _ _ = Ok _ |- _ => rewrite H; clear H; simpl
         end.

(** When the fields subscripted before [f] are strings, the missing [f]
    is what raises. *)
Lemma cleaned_card_first_missing (card : list (str * json)) (f : str) :
  In f required_card_fields -> lookup f card = None ->
  (forall before after,
      required_card_fields = before ++ f :: after ->
      Forall (fun g => exists s, lookup g card = Some (JStr s)) before) ->
  cleaned_card (JObj card) = Err (KeyError f).
Proof.
  intros Hf Hmiss Hbefore. apply stripped_field_missing in Hmiss.
  unfold cleaned_card. simpl in Hf.
  destruct Hf as [<-|[<-|[<-|[<-|[<-|[<-|[]]]]]]].
  - now rewrite Hmiss.
  - specialize (Hbefore [py "id"] _ eq_refl).
    pass_present_fields. now rewrite Hmiss.
  - specialize (Hbefore [py "id"; py "endPointName"] _ eq_refl).
    pass_present_fields. now rewrite Hmiss.
  - specialize (Hbefore [py "id"; py "endPointName"; py "apiSrc"] _ eq_refl).
    pass_present_fields. now rewrite Hmiss.
  - specialize (Hbefore [py "id"; py "endPointName"; py "apiSrc";
                         py "transportProject"] _ eq_refl).
    pass_present_fields. now rewrite Hmiss.
  - specialize (Hbefore [py "id"; py "endPointName"; py "apiSrc";
                         py "transportProject"; py "sectionId"] _ eq_refl).
    pass_present_fields. now rewrite Hmiss.
Qed.

Lemma links_envelope_supplied (sectionId : option str) (parsed : json) :
  supplied sectionId = true ->
  links_envelope sectionId parsed
  = ResultMonad.bind (get (clean_json parsed) (py "links") (JArr []))
      (fun links =>
       ResultMonad.bind (iter links) (fun candidates =>
       ResultMonad.bind (filterM (section_matches sectionId) candidates)
         (fun kept => Ok (links_result (JArr kept))))).
Proof.
  intros H. unfold links_envelope. rewrite H.
  destruct (get (clean_json parsed) (py "links") (JArr [])) as [links|]; simpl;
    [|reflexivity].
  destruct (iter links) as [candidates|]; simpl; [|reflexivity].
  destruct (filterM _ candidates); reflexivity.
Qed.

End Lookups.

(** C3, as amended.  For a valid subject and a metadata document whose
    trimmed links value is an array (or is absent, which counts as the empty
    array): without sectionId, get_links returns that array as it is; with
    a sectionId that is not the empty string, and every link carrying a
    sectionId field, it returns the links whose sectionId is a string equal
    to the one supplied, in their order.  (The empty string is treated as no
    sectionId.) *)
Theorem get_links_filters_by_sectionId
  (upstream : str -> reply) (subject : str) (sectionId : option str)
  (doc : json) (links : list json) :
  In subject SUBJECTS ->
  sectionId <> Some [] ->
  upstream (metadata_url subject) = replied_json doc ->
  get (clean_json doc) (py "links") (JArr []) = Ok (JArr links) ->
  (sectionId <> None ->
   Forall (fun link => exists v, getitem link (py "sectionId") = Ok v) links) ->
  IO.run upstream (get_links subject sectionId)
    = ([metadata_url subject],
       Ok (links_result (JArr (spec_links sectionId links))))
  /\ IO.run upstream (get_links subject None)
    = ([metadata_url subject], Ok (links_result (JArr links)))
  /\ subseq (spec_links sectionId links) links.
Proof.
  intros Hs Hne Hup Hget Hfields.
  assert (Hnone : IO.run upstream (get_links subject None)
                  = ([metadata_url subject], Ok (links_result (JArr links)))).
  { rewrite (Gateway.run_get_links _ _ _ Hs), Hup. simpl.
    unfold links_envelope. now rewrite Hget. }
  destruct sectionId as [sid|];
    [|split; [exact Hnone|]; split; [exact Hnone | apply Lookups.subseq_refl]].
  destruct (supplied (Some sid)) eqn:Hsup;
    [|destruct sid; [contradiction Hne; reflexivity | discriminate Hsup]].
  split; [|split; [exact Hnone | apply Lookups.subseq_filter]].
  rewrite (Gateway.run_get_links _ _ _ Hs), Hup. simpl.
  rewrite (Lookups.links_envelope_supplied _ _ Hsup).
  rewrite Hget. cbn [ResultMonad.bind iter].
  assert (Hall : Forall (fun link => exists b,
                           section_matches (Some sid) link = Ok b) links).
  { eapply Forall_impl; [|apply Hfields; discriminate].
    intros link [v Hv]. unfold section_matches. rewrite Hv. simpl. eauto. }
  rewrite (Lookups.filterM_total _ _ Hall). cbn [ResultMonad.bind spec_links].
  do 4 f_equal. apply filter_ext. intros link.
  unfold section_matches. destruct (getitem link (py "sectionId")); reflexivity.
Qed.

Lemma get_links_filters_by_sectionId_witness :
  IO.run (fun _ => replied_json
                     (JObj [(py "links",
                             JArr [JObj [(py "sectionId", JStr (py " S1 "))];
                                   JObj [(py "sectionId", JStr (py "S2"))];
                                   JObj [(py "sectionId", JStr (py "S1"));
                                         (py "url", JStr (py "u"))]])]))
         (get_links (py "beaches") (Some (py "S1")))
  = ([metadata_url (py "beaches")],
     Ok (links_result
           (JArr [JObj [(py "sectionId", JStr (py "S1"))];
                  JObj [(py "sectionId", JStr (py "S1"));
                        (py "url", JStr (py "u"))]]))).
Proof.
  refine (proj1 (get_links_filters_by_sectionId
                   (fun _ => replied_json _) (py "beaches") (Some (py "S1"))
                   (JObj [(py "links",
                           JArr [JObj [(py "sectionId", JStr (py " S1 "))];
                                 JObj [(py "sectionId", JStr (py "S2"))];
                                 JObj [(py "sectionId", JStr (py "S1"));
                                       (py "url", JStr (py "u"))]])])
                   [JObj [(py "sectionId", JStr (py "S1"))];
                    JObj [(py "sectionId", JStr (py "S2"))];
                    JObj [(py "sectionId", JStr (py "S1"));
                          (py "url", JStr (py "u"))]]
                   _ _ eq_refl eq_refl _)).
  - vm_compute. right. right. left. reflexivity.
  - discriminate.
  - intros _. repeat constructor; eexists; reflexivity.
Defined.

(** C3 as stated fails for the supplied sectionId that is the empty string:
    the link whose sectionId is S1 is returned, although it does not match
    the empty string. *)
Lemma get_links_empty_sectionId_counterexample :
  let link := JObj [(py "sectionId", JStr (py "S1"))] in
  let upstream := fun _ : str => replied_json (JObj [(py "links", JArr [link])]) in
  IO.outcome upstream (get_links (py "beaches") (Some []))
    = Ok (links_result (JArr [link]))
  /\ spec_links (Some []) [link] = []
  /\ IO.outcome upstream (get_links (py "beaches") (Some []))
     <> Ok (links_result (JArr (spec_links (Some []) [link]))).
Proof.
  cbv zeta. split; [reflexivity|]. split; [reflexivity|].
  vm_compute. discriminate.
Qed.

(** C7, as amended.  With a valid subject and a metadata document fetched:
    - a card that is a mapping without one of id, endPointName, apiSrc,
      transportProject, sectionId, componentName makes get_metadata raise,
      and the exception is the KeyError of that field when the cards before
      it are well formed and the fields subscripted before it are strings;
    - a link that is a mapping without sectionId makes get_links raise when
      a non-empty sectionId is supplied, with KeyError sectionId when the
      links before it carry the field;
    - a document without the cards, sections or links key is not an error:
      the missing array counts as empty. *)
Theorem missing_field_raises
  (upstream : str -> reply) (subject : str) (doc : json) :
  In subject SUBJECTS ->
  upstream (metadata_url subject) = replied_json doc ->
  (forall pre card post f,
      get (clean_json doc) (py "cards") (JArr [])
        = Ok (JArr (pre ++ JObj card :: post)) ->
      In f required_card_fields ->
      lookup f card = None ->
      (exists e, IO.outcome upstream (get_metadata subject) = Err e)
      /\ (Forall (fun c => exists r, cleaned_card c = Ok r) pre ->
          (forall before after,
              required_card_fields = before ++ f :: after ->
              Forall (fun g => exists s, lookup g card = Some (JStr s)) before) ->
          IO.outcome upstream (get_metadata subject) = Err (KeyError f)))
  /\ (forall sectionId pre link post,
        supplied sectionId = true ->
        get (clean_json doc) (py "links") (JArr [])
          = Ok (JArr (pre ++ JObj link :: post)) ->
        lookup (py "sectionId") link = None ->
        (exists e, IO.outcome upstream (get_links subject sectionId) = Err e)
        /\ (Forall (fun l => exists v, getitem l (py "sectionId") = Ok v) pre ->
            IO.outcome upstream (get_links subject sectionId)
            = Err (KeyError (py "sectionId"))))
  /\ (forall fields,
        clean_json doc = JObj fields ->
        lookup (py "cards") fields = None ->
        lookup (py "sections") fields = None ->
        IO.outcome upstream (get_metadata subject) = Ok (metadata_result [] []))
  /\ (forall fields sectionId,
        clean_json doc = JObj fields ->
        lookup (py "links") fields = None ->
        IO.outcome upstream (get_links subject sectionId)
        = Ok (links_result (JArr []))).
Proof.
  intros Hs Hup. unfold IO.outcome.
  rewrite (Gateway.run_get_metadata _ _ Hs), Hup.
  cbn [snd parsed_body replied_json status_ok body ResultMonad.bind].
  split; [|split; [|split]].
  - intros pre card post f Hget Hf Hmiss.
    unfold metadata_envelope. rewrite Hget. cbn [ResultMonad.bind iter].
    split.
    + destruct (Lookups.cleaned_card_missing card f Hf Hmiss) as [e He].
      destruct (Lookups.mapM_some_error cleaned_card (pre ++ JObj card :: post)
                  (JObj card) e) as [e' He']; [|exact He|].
      * apply in_or_app. right. left. reflexivity.
      * rewrite He'. simpl. eauto.
    + intros Hpre Hbefore.
      rewrite (Lookups.mapM_first_error cleaned_card pre post (JObj card)
                 (KeyError f) Hpre); [reflexivity|].
      now apply Lookups.cleaned_card_first_missing.
  - intros sectionId pre link post Hsup Hget Hmiss.
    rewrite (Gateway.run_get_links _ _ _ Hs), Hup.
    cbn [snd parsed_body replied_json status_ok body ResultMonad.bind].
    rewrite (Lookups.links_envelope_supplied _ _ Hsup), Hget.
    cbn [ResultMonad.bind iter].
    assert (Hlink : section_matches sectionId (JObj link)
                    = Err (KeyError (py "sectionId"))).
    { unfold section_matches. simpl. now rewrite Hmiss. }
    split.
    + destruct (Lookups.filterM_some_error (section_matches sectionId)
                  (pre ++ JObj link :: post) (JObj link)
                  (KeyError (py "sectionId"))) as [e' He'];
        [|exact Hlink|].
      * apply in_or_app. right. left. reflexivity.
      * rewrite He'. simpl. eauto.
    + intros Hpre.
      rewrite (Lookups.filterM_first_error (section_matches sectionId) pre post
                 (JObj link) (KeyError (py "sectionId"))); [reflexivity| |exact Hlink].
      eapply Forall_impl; [|exact Hpre].
      intros l [v Hv]. unfold section_matches. rewrite Hv. simpl. eauto.
  - intros fields Hdoc Hcards Hsections.
    unfold metadata_envelope. rewrite Hdoc. simpl.
    now rewrite Hcards, Hsections.
  - intros fields sectionId Hdoc Hlinks.
    rewrite (Gateway.run_get_links _ _ _ Hs), Hup.
    cbn [snd parsed_body replied_json status_ok body ResultMonad.bind].
    unfold links_envelope. rewrite Hdoc. simpl. rewrite Hlinks.
    destruct (supplied sectionId); reflexivity.
Qed.

Lemma missing_field_raises_witness :
  IO.outcome
    (fun _ => replied_json
                (JObj [(py "cards",
                        JArr [JObj [(py "endPointName", JStr (py "e"))]])]))
    (get_metadata (py "beaches"))
  = Err (KeyError (py "id")).
Proof.
  refine (proj2 (proj1 (missing_field_raises
                          (fun _ => replied_json
                             (JObj [(py "cards",
                                     JArr [JObj [(py "endPointName",
                                                  JStr (py "e"))]])]))
                          (py "beaches") _ _ eq_refl)
                   [] [(py "endPointName", JStr (py "e"))] [] (py "id")
                   eq_refl _ eq_refl) _ _).
  - vm_compute. right. right. left. reflexivity.
  - simpl. left. reflexivity.
  - constructor.
  - intros [|g before] after H.
    + constructor.
    + exfalso. unfold required_card_fields in H. simpl in H.
      injection H as _ Hrest.
      destruct before as [|? [|? [|? [|? [|? [|? ?]]]]]]; simpl in Hrest;
        vm_compute in Hrest; discriminate Hrest.
Defined.

(** C7 as stated fails for a document without the cards, sections and
    links keys: get_metadata and get_links return envelopes with empty
    arrays instead of raising. *)
Lemma missing_keys_default_counterexample :
  let doc := JObj [] in
  let upstream := fun _ : str => replied_json doc in
  field "cards" (clean_json doc) = None
  /\ field "sections" (clean_json doc) = None
  /\ field "links" (clean_json doc) = None
  /\ IO.outcome upstream (get_metadata (py "beaches"))
     = Ok (metadata_result [] [])
  /\ IO.outcome upstream (get_links (py "beaches") None)
     = Ok (links_result (JArr []))
  /\ ~ (exists e, IO.outcome upstream (get_metadata (py "beaches")) = Err e)
  /\ ~ (exists e, IO.outcome upstream (get_links (py "beaches") None) = Err e).
Proof.
  cbv zeta. repeat split; try reflexivity; intros [e H]; discriminate H.
Qed.

(** * Further properties of the gateway *)

(** ** Fixed points of the trim pass *)

Module Trimmed.

Import StrFacts.

Lemma map_fixed_inv {A} (f : A -> A) (l : list A) :
  List.map f l = l -> Forall (fun a => f a = a) l.
Proof.
  induction l as [|a t IH]; simpl; intros H; constructor.
  - congruence.
  - apply IH. congruence.
Qed.

Lemma map_fields_fixed_inv (fields : list (str * json)) :
  List.map (fun kv => (fst kv, clean_json (snd kv))) fields = fields ->
  Forall (fun kv => clean_json (snd kv) = snd kv) fields.
Proof.
  induction fields as [|[k v] t IH]; simpl; intros H; constructor.
  - simpl. congruence.
  - apply IH. congruence.
Qed.

Lemma map_fields_fixed (fields : list (str * json)) :
  Forall (fun kv => clean_json (snd kv) = snd kv) fields ->
  List.map (fun kv => (fst kv, clean_json (snd kv))) fields = fields.
Proof.
  induction 1 as [|[k v] t Hv _ IH]; simpl in *; congruence.
Qed.

Lemma fixed_iff_trimmed (T : json) :
  clean_json T = T <-> strings_trimmed T = true.
Proof.
  induction T as [ | | | | s | items IH | fields IH ] using json_ind;
    simpl; try (split; reflexivity).
  - rewrite eqb_eq. split; congruence.
  - rewrite forallb_forall, <- Forall_forall. split.
    + intros H. injection H as H. apply map_fixed_inv in H.
      eapply CleanJson.Forall_modus; [|exact H].
      eapply Forall_impl; [|exact IH]. intros v Hv; apply Hv.
    + intros H. f_equal. apply CleanJson.map_fixed.
      eapply CleanJson.Forall_modus; [|exact H].
      eapply Forall_impl; [|exact IH]. intros v Hv; apply Hv.
  - rewrite forallb_forall, <- Forall_forall. split.
    + intros H. injection H as H. apply map_fields_fixed_inv in H.
      eapply CleanJson.Forall_modus; [|exact H].
      eapply Forall_impl; [|exact IH]. intros v Hv; apply Hv.
    + intros H. f_equal. apply map_fields_fixed.
      eapply CleanJson.Forall_modus; [|exact H].
      eapply Forall_impl; [|exact IH]. intros v Hv; apply Hv.
Qed.

Lemma clean_json_trimmed (T : json) : strings_trimmed (clean_json T) = true.
Proof. apply fixed_iff_trimmed, CleanJson.idempotent. Qed.

(** The members of a trimmed mapping and of a trimmed array are trimmed. *)
Lemma lookup_fixed (d : list (str * json)) (k : str) (v : json) :
  clean_json (JObj d) = JObj d -> lookup k d = Some v -> clean_json v = v.
Proof.
  simpl. intros H. injection H as H. apply map_fields_fixed_inv in H.
  induction H as [|[k' v'] t Hv _ IH]; simpl; [discriminate|].
  destruct (eqb k' k); [|exact IH].
  intros E. injection E as <-. exact Hv.
Qed.

Lemma items_fixed (l : list json) :
  clean_json (JArr l) = JArr l -> Forall (fun v => clean_json v = v) l.
Proof. simpl. intros H. injection H as H. now apply map_fixed_inv. Qed.

Lemma get_fixed (obj : json) (k : str) (v : json) :
  clean_json obj = obj -> get obj k (JArr []) = Ok v -> clean_json v = v.
Proof.
  destruct obj as [ | | | | | | d]; simpl; try discriminate.
  intros Hfix H. injection H as H.
  destruct (lookup k d) as [w|] eqn:E.
  - subst w. eapply lookup_fixed; [|exact E]. exact Hfix.
  - subst v. reflexivity.
Qed.

Lemma strip_spaces (s : str) : spaces s -> strip s = [].
Proof.
  intros H. unfold strip.
  assert (E : lstrip s = []).
  { induction H as [|c t Hc _ IH]; simpl; [reflexivity|]. now rewrite Hc. }
  rewrite E. reflexivity.
Qed.

End Trimmed.

(** X1. The values [clean_json] leaves unchanged are exactly those whose
    string values all equal their own strip, and every result of
    [clean_json] is one of them. *)
Theorem clean_json_fixed_points :
  (forall T, clean_json T = T <-> strings_trimmed T = true)
  /\ (forall T, strings_trimmed (clean_json T) = true).
Proof.
  split; [exact Trimmed.fixed_iff_trimmed | exact Trimmed.clean_json_trimmed].
Qed.

(** ** Requests and upstream failures *)

Module Requests.

Lemma parsed_body_fails (r : reply) (e : exn) :
  fails_with r e -> parsed_body r = Err e.
Proof. destruct 1; reflexivity. Qed.

Lemma prefixb_app (a b : str) : prefixb a (a ++ b) = true.
Proof.
  induction a as [|x a IH]; simpl; [reflexivity|].
  now rewrite N.eqb_refl, IH.
Qed.

Lemma valid_or_not (subject : str) :
  In subject SUBJECTS \/ in_subjects subject = false.
Proof.
  destruct (in_subjects subject) eqn:E; [left|right; reflexivity].
  now apply Gateway.in_subjects_In.
Qed.

(** The trace of a tool call, whatever the upstream answers. *)
Lemma requests_of_call (upstream : str -> reply) (c : tool_call) :
  IO.requests upstream (call c)
  = match c with
    | GetAvailableSubjects => []
    | GetMetadata subject | GetLinks subject _ =>
        if in_subjects subject then [metadata_url subject] else []
    | GetData subject _ endPointName =>
        if in_subjects subject then [data_url endPointName] else []
    end.
Proof.
  unfold IO.requests.
  destruct c as [ | s | s tp ep | s sid ]; simpl.
  - reflexivity.
  - destruct (valid_or_not s) as [H|H].
    + rewrite (Gateway.run_get_metadata _ _ H).
      apply Gateway.in_subjects_In in H. now rewrite H.
    + unfold get_metadata. now rewrite H.
  - destruct (valid_or_not s) as [H|H].
    + rewrite (Gateway.run_get_data _ _ _ _ H).
      apply Gateway.in_subjects_In in H. now rewrite H.
    + unfold get_data. now rewrite H.
  - destruct (valid_or_not s) as [H|H].
    + rewrite (Gateway.run_get_links _ _ _ H).
      apply Gateway.in_subjects_In in H. now rewrite H.
    + unfold get_links. now rewrite H.
Qed.

End Requests.

(** X2. For a valid subject, a GET that fails (no response, an error status
    whatever the body, or a body that is not JSON) makes the tool raise that
    failure after its single request: RequestError, HTTPStatusError or
    JSONDecodeError, with nothing caught or retried. *)
Theorem upstream_failure_propagates
  (upstream : str -> reply)
  (subject transportProject endPointName : str) (sectionId : option str) :
  In subject SUBJECTS ->
  (forall e,
      fails_with (upstream (metadata_url subject)) e ->
      IO.run upstream (get_metadata subject) = ([metadata_url subject], Err e)
      /\ IO.run upstream (get_links subject sectionId)
         = ([metadata_url subject], Err e))
  /\ (forall e,
        fails_with (upstream (data_url endPointName)) e ->
        IO.run upstream (get_data subject transportProject endPointName)
        = ([data_url endPointName], Err e)).
Proof.
  intros Hs. split.
  - intros e He. apply Requests.parsed_body_fails in He.
    rewrite (Gateway.run_get_metadata _ _ Hs), (Gateway.run_get_links _ _ _ Hs), He.
    split; reflexivity.
  - intros e He. apply Requests.parsed_body_fails in He.
    now rewrite (Gateway.run_get_data _ _ _ _ Hs), He.
Qed.

Lemma upstream_failure_propagates_witness :
  IO.run (fun _ => Replied {| status_ok := false; body := Some (JObj []) |})
         (get_data (py "beaches") (py "p1") (py "someEndpoint"))
  = ([data_url (py "someEndpoint")], Err HTTPStatusError).
Proof.
  refine (proj2 (upstream_failure_propagates
                   (fun _ => Replied {| status_ok := false; body := Some (JObj []) |})
                   (py "beaches") (py "p1") (py "someEndpoint") None _)
                HTTPStatusError (fails_status _)).
  vm_compute. right. right. left. reflexivity.
Defined.

(** X3. A tool call issues at most one GET.  Which one does not depend on
    what the upstream answers; its URL is the metadata base URL, a slash and
    the subject (get_metadata, get_links) or the data base URL, a slash and
    endPointName (get_data); get_available_subjects issues none. *)
Theorem at_most_one_request (c : tool_call) :
  (forall upstream upstream',
      IO.requests upstream (call c) = IO.requests upstream' (call c))
  /\ (forall upstream,
        IO.requests upstream (call c) = []
        \/ exists url,
            IO.requests upstream (call c) = [url]
            /\ match c with
               | GetAvailableSubjects => False
               | GetMetadata subject | GetLinks subject _ =>
                   url = metadata_url subject
                   /\ prefixb (METADATA_BASE_URL ++ py "/") url = true
               | GetData _ _ endPointName =>
                   url = data_url endPointName
                   /\ prefixb (DATA_BASE_URL ++ py "/") url = true
               end)
  /\ (forall upstream,
        IO.requests upstream (call GetAvailableSubjects) = []).
Proof.
  split; [|split].
  - intros up up'. now rewrite !Requests.requests_of_call.
  - intros up. rewrite Requests.requests_of_call.
    destruct c as [ | s | s tp ep | s sid ]; [left; reflexivity | | | ];
      destruct (in_subjects s); [right|left; reflexivity
                                |right|left; reflexivity
                                |right|left; reflexivity];
      eexists; (split; [reflexivity|]); (split; [reflexivity|]).
    + unfold metadata_url. rewrite app_assoc. apply Requests.prefixb_app.
    + unfold data_url. rewrite app_assoc. apply Requests.prefixb_app.
    + unfold metadata_url. rewrite app_assoc. apply Requests.prefixb_app.
  - intros up. now rewrite Requests.requests_of_call.
Qed.

(** X4. For a valid subject, a metadata document that is not a mapping (an
    array, a string, a number, a boolean or null) makes get_metadata and
    get_links raise AttributeError, while get_data returns any JSON body,
    trimmed, under data. *)
Theorem non_mapping_document_rejected
  (upstream : str -> reply) (subject : str) (sectionId : option str) (doc : json) :
  In subject SUBJECTS ->
  upstream (metadata_url subject) = replied_json doc ->
  ~ is_mapping doc ->
  IO.outcome upstream (get_metadata subject) = Err AttributeError
  /\ IO.outcome upstream (get_links subject sectionId) = Err AttributeError
  /\ (forall transportProject endPointName body,
        upstream (data_url endPointName) = replied_json body ->
        IO.outcome upstream (get_data subject transportProject endPointName)
        = Ok (data_envelope subject transportProject endPointName
                            (clean_json body))).
Proof.
  intros Hs Hup Hdoc. unfold IO.outcome.
  rewrite (Gateway.run_get_metadata _ _ Hs), (Gateway.run_get_links _ _ _ Hs), Hup.
  split; [|split].
  - destruct doc; try reflexivity. exfalso. apply Hdoc. eexists; reflexivity.
  - destruct doc; try reflexivity. exfalso. apply Hdoc. eexists; reflexivity.
  - intros tp ep body Hbody.
    now rewrite (Gateway.run_get_data _ _ _ _ Hs), Hbody.
Qed.

Lemma non_mapping_document_rejected_witness :
  IO.outcome (fun _ => replied_json (JArr [JStr (py " x ")]))
             (get_metadata (py "beaches"))
  = Err AttributeError.
Proof.
  refine (proj1 (non_mapping_document_rejected
                   (fun _ => replied_json (JArr [JStr (py " x ")]))
                   (py "beaches") None (JArr [JStr (py " x ")]) _ eq_refl _)).
  - vm_compute. right. right. left. reflexivity.
  - intros [d H]. discriminate H.
Defined.

(** ** Cards and sections of get_metadata *)

Module Cards.

Import ResultMonad.

Lemma stripped_field_ok (card : json) (f : str) (x : json) :
  stripped_field card f = Ok x ->
  exists d s, card = JObj d /\ lookup f d = Some (JStr s) /\ x = JStr (strip s).
Proof.
  unfold stripped_field. destruct card as [ | | | | | | d]; simpl; try discriminate.
  destruct (lookup f d) as [[ | | | | s | | ]|] eqn:E; simpl; try discriminate.
  intros H. injection H as <-. eauto.
Qed.

Lemma cleaned_card_mapping (d : list (str * json)) (s1 s2 s3 s4 s5 s6 : str) :
  lookup (py "id") d = Some (JStr s1) ->
  lookup (py "endPointName") d = Some (JStr s2) ->
  lookup (py "apiSrc") d = Some (JStr s3) ->
  lookup (py "transportProject") d = Some (JStr s4) ->
  lookup (py "sectionId") d = Some (JStr s5) ->
  lookup (py "componentName") d = Some (JStr s6) ->
  cleaned_card (JObj d)
  = bind (embed_link d) (fun link =>
      Ok (JObj [(py "id", JStr (strip s1));
                (py "endPointName", JStr (strip s2));
                (py "apiSrc", JStr (strip s3));
                (py "transportProject", JStr (strip s4));
                (py "section", JStr (strip s5));
                (py "componentName", JStr (strip s6));
                (py "embedLink", link)])).
Proof.
  intros H1 H2 H3 H4 H5 H6. unfold cleaned_card.
  rewrite (Lookups.stripped_field_string _ _ _ H1),
          (Lookups.stripped_field_string _ _ _ H2),
          (Lookups.stripped_field_string _ _ _ H3),
          (Lookups.stripped_field_string _ _ _ H4),
          (Lookups.stripped_field_string _ _ _ H5),
          (Lookups.stripped_field_string _ _ _ H6).
  cbn [bind get]. unfold embed_link.
  destruct (lookup (py "embedLink") d) as [v|]; [|reflexivity].
  cbn [bind]. destruct (truthy v); [|reflexivity].
  cbn [bind]. destruct v; reflexivity.
Qed.

Lemma cleaned_card_ok (card r : json) :
  cleaned_card card = Ok r ->
  exists d s1 s2 s3 s4 s5 s6 link,
    card = JObj d
    /\ lookup (py "id") d = Some (JStr s1)
    /\ lookup (py "endPointName") d = Some (JStr s2)
    /\ lookup (py "apiSrc") d = Some (JStr s3)
    /\ lookup (py "transportProject") d = Some (JStr s4)
    /\ lookup (py "sectionId") d = Some (JStr s5)
    /\ lookup (py "componentName") d = Some (JStr s6)
    /\ embed_link d = Ok link
    /\ r = JObj [(py "id", JStr (strip s1));
                 (py "endPointName", JStr (strip s2));
                 (py "apiSrc", JStr (strip s3));
                 (py "transportProject", JStr (strip s4));
                 (py "section", JStr (strip s5));
                 (py "componentName", JStr (strip s6));
                 (py "embedLink", link)].
Proof.
  intros H. pose proof H as H0. unfold cleaned_card in H.
  apply Gateway.bind_ok in H. destruct H as [x1 [F1 H]].
  apply Gateway.bind_ok in H. destruct H as [x2 [F2 H]].
  apply Gateway.bind_ok in H. destruct H as [x3 [F3 H]].
  apply Gateway.bind_ok in H. destruct H as [x4 [F4 H]].
  apply Gateway.bind_ok in H. destruct H as [x5 [F5 H]].
  apply Gateway.bind_ok in H. destruct H as [x6 [F6 _]].
  apply stripped_field_ok in F1. destruct F1 as [d [s1 [-> [L1 _]]]].
  apply stripped_field_ok in F2. destruct F2 as [d2 [s2 [E2 [L2 _]]]].
  apply stripped_field_ok in F3. destruct F3 as [d3 [s3 [E3 [L3 _]]]].
  apply stripped_field_ok in F4. destruct F4 as [d4 [s4 [E4 [L4 _]]]].
  apply stripped_field_ok in F5. destruct F5 as [d5 [s5 [E5 [L5 _]]]].
  apply stripped_field_ok in F6. destruct F6 as [d6 [s6 [E6 [L6 _]]]].
  injection E2 as <-. injection E3 as <-. injection E4 as <-.
  injection E5 as <-. injection E6 as <-.
  rewrite (cleaned_card_mapping d s1 s2 s3 s4 s5 s6 L1 L2 L3 L4 L5 L6) in H0.
  apply Gateway.bind_ok in H0. destruct H0 as [link [Hl Hr]].
  injection Hr as <-.
  exists d, s1, s2, s3, s4, s5, s6, link. repeat split; assumption.
Qed.

Lemma embed_link_ok (d : list (str * json)) :
  (exists link, embed_link d = Ok link)
  <-> match lookup (py "embedLink") d with
      | None => True
      | Some v => truthy v = false \/ exists s, v = JStr s
      end.
Proof.
  unfold embed_link. destruct (lookup (py "embedLink") d) as [v|].
  - destruct (truthy v) eqn:Ht.
    + split.
      * intros [link H]. right. destruct v; try discriminate H. eauto.
      * intros [H|[s ->]]; [discriminate H | eauto].
    + split; eauto.
  - split; eauto.
Qed.

Lemma mapM_ok {A B} (f : A -> result B) (l : list A) (rs : list B) :
  mapM f l = Ok rs <-> Forall2 (fun a r => f a = Ok r) l rs.
Proof.
  revert rs. induction l as [|a t IH]; simpl; intros rs.
  - split.
    + intros H. injection H as <-. constructor.
    + intros H. inversion H. reflexivity.
  - split.
    + intros H. apply Gateway.bind_ok in H. destruct H as [b [Hb H]].
      apply Gateway.bind_ok in H. destruct H as [bs [Hbs H]].
      injection H as <-. constructor; [exact Hb | now apply IH].
    + intros H. inversion H as [|a' r l' rs' Ha Ht]; subst.
      rewrite Ha. simpl. apply IH in Ht. now rewrite Ht.
Qed.

Lemma mapM_total {A B} (f : A -> result B) (l : list A) :
  Forall (fun a => exists r, f a = Ok r) l -> exists rs, mapM f l = Ok rs.
Proof.
  induction 1 as [|a t [r Hr] _ [rs IH]]; simpl; [eauto|].
  rewrite Hr, IH. simpl. eauto.
Qed.

Lemma mapM_ok_each {A B} (f : A -> result B) (l : list A) (rs : list B) :
  mapM f l = Ok rs -> Forall (fun a => exists r, f a = Ok r) l.
Proof.
  intros H. apply mapM_ok in H. induction H; constructor; eauto.
Qed.

(** The loop over sections changes nothing in a section that is already
    trimmed, and accepts mappings only. *)
Lemma cleaned_section_ok (section r : json) :
  cleaned_section section = Ok r -> is_mapping section.
Proof.
  destruct section; try discriminate. intros _. eexists; reflexivity.
Qed.

Lemma cleaned_section_fixed (d : list (str * json)) :
  clean_json (JObj d) = JObj d -> cleaned_section (JObj d) = Ok (JObj d).
Proof.
  intros H. simpl in H. injection H as H.
  apply Trimmed.map_fields_fixed_inv in H.
  unfold cleaned_section. simpl. do 2 f_equal.
  induction H as [|[k v] t Hv _ IH]; simpl; [reflexivity|].
  rewrite IH. do 2 f_equal. simpl in Hv.
  destruct v; try reflexivity. simpl in Hv. exact Hv.
Qed.

End Cards.

(** X5. The loop body of get_metadata turns a card into a record exactly
    when the card is a mapping whose id, endPointName, apiSrc,
    transportProject, sectionId and componentName are strings and whose
    embedLink is absent, falsy or a string.  The record then has the seven
    keys id, endPointName, apiSrc, transportProject, section, componentName,
    embedLink in this order, each of the first six holding the stripped
    string of the card, sectionId being renamed to section. *)
Theorem cleaned_card_accepts (card : json) :
  ((exists r, cleaned_card card = Ok r) <-> well_formed_card card)
  /\ (forall r,
        cleaned_card card = Ok r ->
        (exists fields,
            r = JObj fields
            /\ List.map fst fields
               = [py "id"; py "endPointName"; py "apiSrc"; py "transportProject";
                  py "section"; py "componentName"; py "embedLink"])
        /\ copies card r "id" "id"
        /\ copies card r "endPointName" "endPointName"
        /\ copies card r "apiSrc" "apiSrc"
        /\ copies card r "transportProject" "transportProject"
        /\ copies card r "sectionId" "section"
        /\ copies card r "componentName" "componentName").
Proof.
  split.
  - split.
    + intros [r H]. apply Cards.cleaned_card_ok in H.
      destruct H as [d [s1 [s2 [s3 [s4 [s5 [s6 [link H]]]]]]]].
      destruct H as [-> [L1 [L2 [L3 [L4 [L5 [L6 [Hl _]]]]]]]].
      exists d. split; [reflexivity|]. split.
      * unfold required_card_fields. repeat constructor; eauto.
      * apply Cards.embed_link_ok. eauto.
    + intros [d [-> [Hreq Hlink]]].
      unfold required_card_fields in Hreq.
      repeat match goal with
             | H : Forall _ (_ :: _) |- _ => inversion H; subst; clear H
             end.
      repeat match goal with
             | H : exists s, lookup _ _ = Some (JStr s) |- _ => destruct H as [? H]
             end.
      erewrite Cards.cleaned_card_mapping by eassumption.
      apply Cards.embed_link_ok in Hlink. destruct Hlink as [link ->].
      simpl. eauto.
  - intros r H. apply Cards.cleaned_card_ok in H.
    destruct H as [d [s1 [s2 [s3 [s4 [s5 [s6 [link H]]]]]]]].
    destruct H as [-> [L1 [L2 [L3 [L4 [L5 [L6 [_ ->]]]]]]]].
    split; [eexists; split; reflexivity|].
    unfold copies, field.
    repeat split; eexists; (split; [eassumption | reflexivity]).
Qed.

Module Metadata.

Import ResultMonad.

(** In a card that is already trimmed, the strip of each field is the
    field. *)
Lemma fixed_string (d : list (str * json)) (k s : str) :
  clean_json (JObj d) = JObj d -> lookup k d = Some (JStr s) -> strip s = s.
Proof.
  intros Hd Hk. pose proof (Trimmed.lookup_fixed d k _ Hd Hk) as H.
  simpl in H. now injection H.
Qed.

Lemma card_fields_verbatim (card e : json) :
  clean_json card = card ->
  cleaned_card card = Ok e ->
  field "id" e = field "id" card
  /\ field "endPointName" e = field "endPointName" card
  /\ field "apiSrc" e = field "apiSrc" card
  /\ field "transportProject" e = field "transportProject" card
  /\ field "section" e = field "sectionId" card
  /\ field "componentName" e = field "componentName" card.
Proof.
  intros Hfix H. apply Cards.cleaned_card_ok in H.
  destruct H as [d [s1 [s2 [s3 [s4 [s5 [s6 [link H]]]]]]]].
  destruct H as [-> [L1 [L2 [L3 [L4 [L5 [L6 [_ ->]]]]]]]].
  unfold field.
  rewrite L1, L2, L3, L4, L5, L6.
  rewrite (fixed_string d _ _ Hfix L1), (fixed_string d _ _ Hfix L2),
          (fixed_string d _ _ Hfix L3), (fixed_string d _ _ Hfix L4),
          (fixed_string d _ _ Hfix L5), (fixed_string d _ _ Hfix L6).
  repeat split; reflexivity.
Qed.

Lemma sections_unchanged (sections secs : list json) :
  Forall (fun v => clean_json v = v) sections ->
  mapM cleaned_section sections = Ok secs ->
  secs = sections.
Proof.
  intros Hfix H. apply Cards.mapM_ok in H.
  induction H as [|s r t rs Hs _ IH]; [reflexivity|].
  inversion Hfix as [|? ? Hs_fix Ht_fix]; subst.
  destruct (Cards.cleaned_section_ok _ _ Hs) as [d ->].
  rewrite (Cards.cleaned_section_fixed d Hs_fix) in Hs.
  injection Hs as <-. f_equal. now apply IH.
Qed.

Lemma sections_accepted (sections : list json) :
  Forall (fun v => clean_json v = v) sections ->
  Forall is_mapping sections ->
  mapM cleaned_section sections = Ok sections.
Proof.
  intros Hfix Hmap. induction Hmap as [|s t [d ->] _ IH]; [reflexivity|].
  inversion Hfix as [|? ? Hs_fix Ht_fix]; subst.
  cbn [mapM]. rewrite (Cards.cleaned_section_fixed d Hs_fix).
  cbn [bind]. now rewrite (IH Ht_fix).
Qed.

(** What get_metadata computes from a document with array cards and
    sections. *)
Lemma envelope_of_arrays (doc : json) (cards sections : list json) :
  get (clean_json doc) (py "cards") (JArr []) = Ok (JArr cards) ->
  get (clean_json doc) (py "sections") (JArr []) = Ok (JArr sections) ->
  metadata_envelope doc
  = bind (mapM cleaned_card cards) (fun endpoints =>
    bind (mapM cleaned_section sections) (fun secs =>
    Ok (metadata_result endpoints secs))).
Proof.
  intros Hc Hs. unfold metadata_envelope. rewrite Hc. cbn [bind iter].
  destruct (mapM cleaned_card cards); [|reflexivity].
  cbn [bind]. rewrite Hs. reflexivity.
Qed.

Lemma array_members_fixed (doc : json) (k : str) (l : list json) :
  get (clean_json doc) k (JArr []) = Ok (JArr l) ->
  Forall (fun v => clean_json v = v) l.
Proof.
  intros H. apply Trimmed.items_fixed.
  eapply Trimmed.get_fixed; [|exact H]. apply CleanJson.idempotent.
Qed.

End Metadata.

(** X6. For a valid subject and a fetched document whose trimmed cards and
    sections are arrays (or absent), get_metadata returns exactly when every
    card is well formed and every section is a mapping.  What it returns
    then has one record per card, in order, whose id, endPointName, apiSrc,
    transportProject and componentName are those of the trimmed card and
    whose section is its sectionId, and has the trimmed sections
    unchanged. *)
Theorem get_metadata_result
  (upstream : str -> reply) (subject : str) (doc : json)
  (cards sections : list json) :
  In subject SUBJECTS ->
  upstream (metadata_url subject) = replied_json doc ->
  get (clean_json doc) (py "cards") (JArr []) = Ok (JArr cards) ->
  get (clean_json doc) (py "sections") (JArr []) = Ok (JArr sections) ->
  ((exists r, IO.outcome upstream (get_metadata subject) = Ok r)
   <-> Forall well_formed_card cards /\ Forall is_mapping sections)
  /\ (forall r,
        IO.outcome upstream (get_metadata subject) = Ok r ->
        exists endpoints,
          r = metadata_result endpoints sections
          /\ Forall2
               (fun card e =>
                  cleaned_card card = Ok e
                  /\ field "id" e = field "id" card
                  /\ field "endPointName" e = field "endPointName" card
                  /\ field "apiSrc" e = field "apiSrc" card
                  /\ field "transportProject" e = field "transportProject" card
                  /\ field "section" e = field "sectionId" card
                  /\ field "componentName" e = field "componentName" card)
               cards endpoints).
Proof.
  intros Hs Hup Hcards Hsections. unfold IO.outcome.
  rewrite (Gateway.run_get_metadata _ _ Hs), Hup.
  cbn [snd parsed_body replied_json status_ok body ResultMonad.bind].
  rewrite (Metadata.envelope_of_arrays doc cards sections Hcards Hsections).
  pose proof (Metadata.array_members_fixed _ _ _ Hcards) as Fcards.
  pose proof (Metadata.array_members_fixed _ _ _ Hsections) as Fsections.
  split.
  - split.
    + intros [r H].
      apply Gateway.bind_ok in H. destruct H as [eps [He H]].
      apply Gateway.bind_ok in H. destruct H as [secs [Hse _]].
      split.
      * apply Cards.mapM_ok_each in He.
        eapply Forall_impl; [|exact He].
        intros card Hc. now apply (proj1 (cleaned_card_accepts card)).
      * apply Cards.mapM_ok_each in Hse.
        eapply Forall_impl; [|exact Hse].
        intros s [r' Hr']. eapply Cards.cleaned_section_ok; exact Hr'.
    + intros [Hwf Hmap].
      destruct (Cards.mapM_total cleaned_card cards) as [eps ->].
      * eapply Forall_impl; [|exact Hwf].
        intros card Hc. now apply (proj1 (cleaned_card_accepts card)).
      * cbn [ResultMonad.bind].
        rewrite (Metadata.sections_accepted sections Fsections Hmap).
        cbn [ResultMonad.bind]. eauto.
  - intros r H.
    apply Gateway.bind_ok in H. destruct H as [eps [He H]].
    apply Gateway.bind_ok in H. destruct H as [secs [Hse H]].
    injection H as <-.
    rewrite (Metadata.sections_unchanged sections secs Fsections Hse).
    exists eps. split; [reflexivity|].
    apply Cards.mapM_ok in He. clear Hcards.
    induction He as [|card e t es Hc _ IH]; constructor.
    + split; [exact Hc|].
      inversion Fcards; subst. now apply Metadata.card_fields_verbatim.
    + apply IH. now inversion Fcards.
Qed.

Lemma get_metadata_result_witness :
  exists endpoints,
    returned (IO.outcome sample_upstream (get_metadata (py "beaches")))
    = metadata_result endpoints (trimmed_array sample_document "sections")
    /\ List.length endpoints = 1.
Proof.
  destruct (proj2 (get_metadata_result sample_upstream (py "beaches")
                     sample_document
                     (trimmed_array sample_document "cards")
                     (trimmed_array sample_document "sections")
                     (or_intror (or_intror (or_introl eq_refl)))
                     eq_refl eq_refl eq_refl)
                  (returned (IO.outcome sample_upstream
                                        (get_metadata (py "beaches"))))
                  eq_refl) as [endpoints [E F]].
  exists endpoints. split; [exact E|].
  apply Forall2_length in F. rewrite <- F. reflexivity.
Defined.

(** ** The embedLink of a record *)

Module EmbedLink.

Lemma lookup_clean (k : str) (d : list (str * json)) :
  lookup k (List.map (fun kv => (fst kv, clean_json (snd kv))) d)
  = option_map clean_json (lookup k d).
Proof.
  induction d as [|[k' v] t IH]; simpl; [reflexivity|].
  destruct (eqb k' k); [reflexivity | exact IH].
Qed.

Lemma truthy_string (s : str) : truthy (JStr s) = true -> s <> [].
Proof. destruct s; simpl; [discriminate | discriminate]. Qed.

(** The embedLink entry made from a trimmed card. *)
Lemma embed_link_of_trimmed (d : list (str * json)) (link : json) :
  clean_json (JObj d) = JObj d ->
  embed_link d = Ok link ->
  link = JNull
  \/ exists s, link = JStr s /\ s <> [] /\ strip s = s
               /\ lookup (py "embedLink") d = Some (JStr s).
Proof.
  intros Hfix. unfold embed_link.
  destruct (lookup (py "embedLink") d) as [v|] eqn:E.
  - destruct (truthy v) eqn:Ht.
    + destruct v; try discriminate. intros H. injection H as <-.
      pose proof (Metadata.fixed_string d _ _ Hfix E) as Hs.
      right. exists s. rewrite Hs.
      repeat split; auto using truthy_string.
    + intros H. injection H as <-. now left.
  - intros H. injection H as <-. now left.
Qed.

End EmbedLink.

(** X7. In the record get_metadata builds from a trimmed card, embedLink is
    null or a non-empty string without whitespace at its ends, never the
    empty string: a card whose embedLink is absent, empty or made of
    whitespace only gets null. *)
Theorem embedLink_null_or_nonempty (card r : json) :
  cleaned_card (clean_json card) = Ok r ->
  (field "embedLink" r = Some JNull
   \/ exists s, field "embedLink" r = Some (JStr s) /\ s <> [] /\ strip s = s)
  /\ (forall s, field "embedLink" card = Some (JStr s) -> spaces s ->
                field "embedLink" r = Some JNull)
  /\ (field "embedLink" card = None -> field "embedLink" r = Some JNull).
Proof.
  intros H. pose proof (CleanJson.idempotent card) as Hfix.
  apply Cards.cleaned_card_ok in H.
  destruct H as [d [s1 [s2 [s3 [s4 [s5 [s6 [link H]]]]]]]].
  destruct H as [Ed [_ [_ [_ [_ [_ [_ [Hl ->]]]]]]]].
  rewrite Ed in Hfix.
  assert (Er : forall x,
             field "embedLink"
               (JObj [(py "id", JStr (strip s1));
                      (py "endPointName", JStr (strip s2));
                      (py "apiSrc", JStr (strip s3));
                      (py "transportProject", JStr (strip s4));
                      (py "section", JStr (strip s5));
                      (py "componentName", JStr (strip s6));
                      (py "embedLink", x)]) = Some x) by reflexivity.
  rewrite Er. clear Er.
  destruct card as [ | | | | | | d0]; try discriminate Ed.
  simpl in Ed. injection Ed as Ed. subst d.
  split; [|split].
  - destruct (EmbedLink.embed_link_of_trimmed _ _ Hfix Hl) as [->|[s [-> [Hne [Hs _]]]]].
    + now left.
    + right. eauto.
  - intros s Hcard Hsp. simpl in Hcard.
    unfold embed_link in Hl. rewrite EmbedLink.lookup_clean, Hcard in Hl.
    simpl in Hl. rewrite (Trimmed.strip_spaces s Hsp) in Hl. simpl in Hl.
    now injection Hl as <-.
  - intros Hcard. simpl in Hcard.
    unfold embed_link in Hl. rewrite EmbedLink.lookup_clean, Hcard in Hl.
    simpl in Hl. now injection Hl as <-.
Qed.

Lemma embedLink_null_or_nonempty_witness :
  field "embedLink" (returned (cleaned_card (clean_json sample_card)))
  = Some JNull.
Proof.
  refine (proj1 (proj2 (embedLink_null_or_nonempty
                          sample_card
                          (returned (cleaned_card (clean_json sample_card)))
                          _))
                (py "   ") _ _).
  - vm_compute. reflexivity.
  - reflexivity.
  - repeat constructor.
Defined.

(** ** What get_links keeps *)

Module Kept.

Import ResultMonad.

(** The links comprehension keeps elements on which its condition held. *)
Lemma filterM_kept {A} (p : A -> result bool) (l kept : list A) :
  filterM p l = Ok kept -> Forall (fun a => In a l /\ p a = Ok true) kept.
Proof.
  revert kept. induction l as [|a t IH]; simpl; intros kept H.
  - injection H as <-. constructor.
  - apply Gateway.bind_ok in H. destruct H as [keep [Hk H]].
    apply Gateway.bind_ok in H. destruct H as [t' [Ht H]].
    injection H as <-. specialize (IH _ Ht).
    assert (IH' : Forall (fun x => In x (a :: t) /\ p x = Ok true) t').
    { eapply Forall_impl; [|exact IH]. intros x [Hin Hx]. split; [now right|exact Hx]. }
    destruct keep; [constructor; [split; [now left | exact Hk] | exact IH'] | exact IH'].
Qed.

(** A link on which the condition holds is a mapping whose sectionId is the
    string supplied. *)
Lemma section_matches_true (sid : str) (link : json) :
  section_matches (Some sid) link = Ok true ->
  exists d, link = JObj d /\ lookup (py "sectionId") d = Some (JStr sid).
Proof.
  unfold section_matches. destruct link as [ | | | | | | d]; simpl; try discriminate.
  destruct (lookup (py "sectionId") d) as [v|] eqn:E; simpl; [|discriminate].
  intros H. injection H as H. destruct v; simpl in H; try discriminate.
  apply StrFacts.eqb_eq in H. subst. eauto.
Qed.

(** Among what is iterated over in a trimmed value, the mappings are
    trimmed. *)
Lemma iter_mappings_fixed (v : json) (l : list json) :
  clean_json v = v -> iter v = Ok l ->
  Forall (fun a => is_mapping a -> clean_json a = a) l.
Proof.
  destruct v as [ | | | | s | items | d]; simpl; try discriminate.
  - intros _ H. injection H as <-. apply Forall_forall.
    intros a Ha [d Hd]. apply in_map_iff in Ha. destruct Ha as [c [<- _]].
    discriminate Hd.
  - intros Hfix H. injection H as <-.
    eapply Forall_impl; [|apply Trimmed.items_fixed; exact Hfix]. auto.
  - intros _ H. injection H as <-. apply Forall_forall.
    intros a Ha [d' Hd]. apply in_map_iff in Ha. destruct Ha as [kv [<- _]].
    discriminate Hd.
Qed.

Lemma kept_are_fixed (sid : str) (v : json) (candidates kept : list json) :
  clean_json v = v -> iter v = Ok candidates ->
  filterM (section_matches (Some sid)) candidates = Ok kept ->
  Forall (fun a => clean_json a = a
                   /\ exists d, a = JObj d
                                /\ lookup (py "sectionId") d = Some (JStr sid)) kept.
Proof.
  intros Hfix Hiter Hf. apply filterM_kept in Hf.
  pose proof (iter_mappings_fixed v candidates Hfix Hiter) as Hm.
  rewrite Forall_forall in Hm.
  eapply Forall_impl; [|exact Hf].
  intros a [Hin Ha]. apply section_matches_true in Ha.
  destruct Ha as [d [-> Hd]]. split; [|eauto].
  apply Hm; [exact Hin | eexists; reflexivity].
Qed.

Lemma supplied_non_empty (sid : str) : sid <> [] -> supplied (Some sid) = true.
Proof. destruct sid; [contradiction | reflexivity]. Qed.

End Kept.

(** X8. get_links compares the sectionId it is given, as given, with the
    trimmed sectionId of each link.  So for a valid subject a sectionId with
    whitespace at either end matches no link: whenever the call returns, the
    list of links is empty. *)
Theorem padded_sectionId_matches_nothing
  (upstream : str -> reply) (subject sid : str) (doc r : json) :
  In subject SUBJECTS ->
  upstream (metadata_url subject) = replied_json doc ->
  strip sid <> sid ->
  IO.outcome upstream (get_links subject (Some sid)) = Ok r ->
  r = links_result (JArr []).
Proof.
  intros Hs Hup Hpad. unfold IO.outcome.
  rewrite (Gateway.run_get_links _ _ _ Hs), Hup.
  cbn [snd parsed_body replied_json status_ok body ResultMonad.bind].
  assert (Hsup : supplied (Some sid) = true).
  { apply Kept.supplied_non_empty. intros ->. apply Hpad. reflexivity. }
  rewrite (Lookups.links_envelope_supplied _ _ Hsup). intros H.
  apply Gateway.bind_ok in H. destruct H as [v [Hv H]].
  apply Gateway.bind_ok in H. destruct H as [candidates [Hc H]].
  apply Gateway.bind_ok in H. destruct H as [kept [Hk H]].
  injection H as <-.
  assert (Hfix : clean_json v = v).
  { eapply Trimmed.get_fixed; [|exact Hv]. apply CleanJson.idempotent. }
  pose proof (Kept.kept_are_fixed sid v candidates kept Hfix Hc Hk) as Hkept.
  destruct Hkept as [|a t [Ha [d [-> Hd]]] _]; [reflexivity|].
  exfalso. apply Hpad. exact (Metadata.fixed_string d _ _ Ha Hd).
Qed.

Lemma padded_sectionId_matches_nothing_witness :
  returned (IO.outcome sample_upstream (get_links (py "beaches") (Some (py " S1 "))))
  = links_result (JArr []).
Proof.
  refine (padded_sectionId_matches_nothing sample_upstream (py "beaches")
            (py " S1 ") sample_document _ _ eq_refl _ _).
  - vm_compute. right. right. left. reflexivity.
  - vm_compute. discriminate.
  - vm_compute. reflexivity.
Defined.

(** X9. When the trimmed cards value of the document is not an array,
    get_metadata (valid subject) raises TypeError, except for the empty
    string and the empty mapping, which give no endpoint at all. *)
Theorem non_array_cards
  (upstream : str -> reply) (subject : str) (doc v : json) :
  In subject SUBJECTS ->
  upstream (metadata_url subject) = replied_json doc ->
  get (clean_json doc) (py "cards") (JArr []) = Ok v ->
  (forall l, v <> JArr l) ->
  (v <> JStr [] -> v <> JObj [] ->
   IO.outcome upstream (get_metadata subject) = Err TypeError)
  /\ (v = JStr [] \/ v = JObj [] ->
      forall r, IO.outcome upstream (get_metadata subject) = Ok r ->
                exists sections, r = metadata_result [] sections).
Proof.
  intros Hs Hup Hget Harr. unfold IO.outcome.
  rewrite (Gateway.run_get_metadata _ _ Hs), Hup.
  cbn [snd parsed_body replied_json status_ok body ResultMonad.bind].
  unfold metadata_envelope. rewrite Hget. cbn [ResultMonad.bind].
  split.
  - intros Hstr Hobj.
    destruct v as [ | | | | [|c s] | items | [|[k w] d]]; try reflexivity.
    + contradiction Hstr; reflexivity.
    + contradiction (Harr items); reflexivity.
    + contradiction Hobj; reflexivity.
  - intros [->| ->] r H; simpl in H.
    + apply Gateway.bind_ok in H. destruct H as [sv [_ H]].
      apply Gateway.bind_ok in H. destruct H as [ss [_ H]].
      apply Gateway.bind_ok in H. destruct H as [secs [_ H]].
      injection H as <-. eauto.
    + apply Gateway.bind_ok in H. destruct H as [sv [_ H]].
      apply Gateway.bind_ok in H. destruct H as [ss [_ H]].
      apply Gateway.bind_ok in H. destruct H as [secs [_ H]].
      injection H as <-. eauto.
Qed.

Lemma non_array_cards_witness :
  IO.outcome (fun _ => replied_json
                         (JObj [(py "cards",
                                 JObj [(py "c1", JObj [(py "id", JStr (py "x"))])])]))
             (get_metadata (py "beaches"))
  = Err TypeError.
Proof.
  refine (proj1 (non_array_cards
                   (fun _ => replied_json
                               (JObj [(py "cards",
                                       JObj [(py "c1",
                                              JObj [(py "id", JStr (py "x"))])])]))
                   (py "beaches")
                   (JObj [(py "cards",
                           JObj [(py "c1", JObj [(py "id", JStr (py "x"))])])])
                   (JObj [(py "c1", JObj [(py "id", JStr (py "x"))])])
                   _ eq_refl eq_refl _) _ _).
  - vm_compute. right. right. left. reflexivity.
  - intros l H. discriminate H.
  - discriminate.
  - discriminate.
Defined.

(** ** What the tools return *)

Module Payload.

Import ResultMonad.

Lemma strip_trimmed (s : str) : eqb (strip (strip s)) (strip s) = true.
Proof. apply StrFacts.eqb_eq, StrFacts.strip_idempotent. Qed.

Lemma cleaned_card_trimmed (card e : json) :
  cleaned_card card = Ok e -> strings_trimmed e = true.
Proof.
  intros H. apply Cards.cleaned_card_ok in H.
  destruct H as [d [s1 [s2 [s3 [s4 [s5 [s6 [link H]]]]]]]].
  destruct H as [_ [_ [_ [_ [_ [_ [_ [Hl ->]]]]]]]].
  cbn [strings_trimmed forallb snd]. rewrite !strip_trimmed.
  cbn [andb]. rewrite andb_true_r.
  unfold embed_link in Hl.
  destruct (lookup (py "embedLink") d) as [v|].
  - destruct (truthy v).
    + destruct v; try discriminate. injection Hl as <-. apply strip_trimmed.
    + injection Hl as <-. reflexivity.
  - injection Hl as <-. reflexivity.
Qed.

Lemma forallb_Forall {A} (f : A -> bool) (l : list A) :
  Forall (fun a => f a = true) l -> forallb f l = true.
Proof. intros H. apply forallb_forall. now apply Forall_forall. Qed.

Lemma endpoints_trimmed (cards endpoints : list json) :
  mapM cleaned_card cards = Ok endpoints ->
  strings_trimmed (JArr endpoints) = true.
Proof.
  intros H. apply Cards.mapM_ok in H. simpl. apply forallb_Forall.
  induction H as [|c e t es Hc _ IH]; constructor;
    [eapply cleaned_card_trimmed; exact Hc | exact IH].
Qed.

Lemma sections_trimmed (v : json) (sections secs : list json) :
  clean_json v = v -> iter v = Ok sections ->
  mapM cleaned_section sections = Ok secs ->
  strings_trimmed (JArr secs) = true.
Proof.
  intros Hfix Hiter H. apply Cards.mapM_ok in H.
  pose proof (Kept.iter_mappings_fixed v sections Hfix Hiter) as Hm.
  clear Hiter. simpl. apply forallb_Forall.
  induction H as [|s r t rs Hs _ IH]; constructor.
  - inversion Hm as [|? ? Hs_fix _]; subst.
    destruct (Cards.cleaned_section_ok _ _ Hs) as [d ->].
    assert (Hd : clean_json (JObj d) = JObj d)
      by (apply Hs_fix; eexists; reflexivity).
    rewrite (Cards.cleaned_section_fixed d Hd) in Hs. injection Hs as <-.
    exact (proj1 (Trimmed.fixed_iff_trimmed (JObj d)) Hd).
  - apply IH. now inversion Hm.
Qed.

Lemma metadata_payload_trimmed (doc r : json) :
  metadata_envelope doc = Ok r ->
  exists payload, field "data" r = Some payload /\ strings_trimmed payload = true.
Proof.
  unfold metadata_envelope. intros H.
  apply Gateway.bind_ok in H. destruct H as [cv [_ H]].
  apply Gateway.bind_ok in H. destruct H as [cards [_ H]].
  apply Gateway.bind_ok in H. destruct H as [eps [Heps H]].
  apply Gateway.bind_ok in H. destruct H as [sv [Hsv H]].
  apply Gateway.bind_ok in H. destruct H as [sections [Hiter H]].
  apply Gateway.bind_ok in H. destruct H as [secs [Hsecs H]].
  injection H as <-.
  eexists. split; [reflexivity|].
  assert (Hfix : clean_json sv = sv).
  { eapply Trimmed.get_fixed; [|exact Hsv]. apply CleanJson.idempotent. }
  pose proof (endpoints_trimmed _ _ Heps) as He.
  pose proof (sections_trimmed _ _ _ Hfix Hiter Hsecs) as Hs.
  cbn [strings_trimmed forallb snd] in *. now rewrite He, Hs.
Qed.

Lemma links_payload_trimmed (sectionId : option str) (doc r : json) :
  links_envelope sectionId doc = Ok r ->
  exists payload, field "data" r = Some payload /\ strings_trimmed payload = true.
Proof.
  destruct (supplied sectionId) eqn:Hsup.
  - rewrite (Lookups.links_envelope_supplied _ _ Hsup). intros H.
    apply Gateway.bind_ok in H. destruct H as [v [Hv H]].
    apply Gateway.bind_ok in H. destruct H as [candidates [Hc H]].
    apply Gateway.bind_ok in H. destruct H as [kept [Hk H]].
    injection H as <-.
    eexists. split; [reflexivity|].
    assert (Hfix : clean_json v = v).
    { eapply Trimmed.get_fixed; [|exact Hv]. apply CleanJson.idempotent. }
    destruct sectionId as [sid|]; [|discriminate Hsup].
    pose proof (Kept.kept_are_fixed sid v candidates kept Hfix Hc Hk) as Hkept.
    cbn [strings_trimmed forallb snd]. rewrite andb_true_r.
    apply forallb_Forall. eapply Forall_impl; [|exact Hkept].
    intros a [Ha _]. exact (proj1 (Trimmed.fixed_iff_trimmed a) Ha).
  - unfold links_envelope. rewrite Hsup. intros H.
    apply Gateway.bind_ok in H. destruct H as [v [Hv H]].
    cbn [bind] in H. injection H as <-.
    eexists. split; [reflexivity|].
    cbn [strings_trimmed forallb snd]. rewrite andb_true_r.
    apply Trimmed.fixed_iff_trimmed.
    eapply Trimmed.get_fixed; [|exact Hv]. apply CleanJson.idempotent.
Qed.

End Payload.

(** X10. Whatever a tool returns carries under data a payload in which no
    string value, at any depth, begins or ends with whitespace.  (The
    metadata echo of get_data is outside data and is not trimmed.) *)
Theorem returned_payload_is_trimmed
  (upstream : str -> reply) (c : tool_call) (v : json) :
  IO.outcome upstream (call c) = Ok v ->
  exists payload,
    field "data" v = Some payload /\ strings_trimmed payload = true.
Proof.
  unfold IO.outcome. destruct c as [ | s | s tp ep | s sid ]; simpl; intros H.
  - vm_compute in H. injection H as <-. eexists. split; reflexivity.
  - destruct (Requests.valid_or_not s) as [Hs|Hs].
    + rewrite (Gateway.run_get_metadata _ _ Hs) in H. simpl in H.
      apply Gateway.bind_ok in H. destruct H as [doc [_ H]].
      now apply Payload.metadata_payload_trimmed in H.
    + unfold get_metadata in H. rewrite Hs in H. discriminate H.
  - destruct (Requests.valid_or_not s) as [Hs|Hs].
    + rewrite (Gateway.run_get_data _ _ _ _ Hs) in H. simpl in H.
      apply Gateway.bind_ok in H. destruct H as [doc [_ H]].
      injection H as <-. eexists. split; [reflexivity|].
      apply Trimmed.clean_json_trimmed.
    + unfold get_data in H. rewrite Hs in H. discriminate H.
  - destruct (Requests.valid_or_not s) as [Hs|Hs].
    + rewrite (Gateway.run_get_links _ _ _ Hs) in H. simpl in H.
      apply Gateway.bind_ok in H. destruct H as [doc [_ H]].
      now apply Payload.links_payload_trimmed in H.
    + unfold get_links in H. rewrite Hs in H. discriminate H.
Qed.

Lemma returned_payload_is_trimmed_witness :
  exists payload,
    field "data" (returned (IO.outcome sample_upstream
                                       (call (GetLinks (py "beaches") (Some (py "S1"))))))
    = Some payload
    /\ strings_trimmed payload = true.
Proof.
  apply (returned_payload_is_trimmed sample_upstream
           (GetLinks (py "beaches") (Some (py "S1")))).
  vm_compute. reflexivity.
Defined.

Module Listing.

Lemma run_listing (upstream : str -> reply) :
  IO.run upstream get_available_subjects
  = ([], Ok (success [(py "data",
                       JObj [(py "subjects",
                              JArr (List.map listed_record SUBJECTS_INFO))])])).
Proof. reflexivity. Qed.

Lemma listed_ids (subject : str) :
  In subject SUBJECTS
  <-> exists record,
      In record (List.map listed_record SUBJECTS_INFO)
      /\ field "id" record = Some (JStr subject).
Proof.
  unfold SUBJECTS. rewrite in_map_iff. split.
  - intros [entry [<- Hin]]. exists (listed_record entry). split.
    + now apply in_map.
    + reflexivity.
  - intros [record [Hin Hid]]. apply in_map_iff in Hin.
    destruct Hin as [entry [<- Hin]]. exists entry. split; [|exact Hin].
    change (Some (JStr (fst entry)) = Some (JStr subject)) in Hid.
    now injection Hid.
Qed.

End Listing.

(** X11. The subjects the tools accept are the ones get_available_subjects
    lists: some record of the listing has the subject as id exactly when
    get_metadata, get_links and get_data get past their subject check and
    issue their request. *)
Theorem listed_subjects_are_accepted
  (upstream : str -> reply) (subject : str) :
  let listed :=
    exists subjects record,
      IO.outcome upstream get_available_subjects
      = Ok (success [(py "data", JObj [(py "subjects", JArr subjects)])])
      /\ In record subjects
      /\ field "id" record = Some (JStr subject) in
  (listed <-> IO.requests upstream (get_metadata subject) = [metadata_url subject])
  /\ (forall sectionId,
         listed <-> IO.requests upstream (get_links subject sectionId)
                    = [metadata_url subject])
  /\ (forall transportProject endPointName,
         listed <-> IO.requests upstream
                      (get_data subject transportProject endPointName)
                    = [data_url endPointName]).
Proof.
  cbv zeta.
  assert (L : (exists subjects record,
                  IO.outcome upstream get_available_subjects
                  = Ok (success [(py "data", JObj [(py "subjects", JArr subjects)])])
                  /\ In record subjects
                  /\ field "id" record = Some (JStr subject))
              <-> in_subjects subject = true).
  { rewrite Gateway.in_subjects_In, Listing.listed_ids.
    unfold IO.outcome. rewrite Listing.run_listing. cbn [snd]. split.
    - intros [subjects [record [E [Hin Hid]]]]. injection E as <-. eauto.
    - intros [record [Hin Hid]]. eauto. }
  split; [|split]; intros; rewrite L.
  - change (get_metadata subject) with (call (GetMetadata subject)).
    rewrite Requests.requests_of_call.
    destruct (in_subjects subject); split; (reflexivity || discriminate).
  - change (get_links subject sectionId) with (call (GetLinks subject sectionId)).
    rewrite Requests.requests_of_call.
    destruct (in_subjects subject); split; (reflexivity || discriminate).
  - change (get_data subject transportProject endPointName)
      with (call (GetData subject transportProject endPointName)).
    rewrite Requests.requests_of_call.
    destruct (in_subjects subject); split; (reflexivity || discriminate).
Qed.
